(** * The DT protocol: client and server codecs, validation and dispatch

    A shallow embedding of [src/server.py] and [src/client.py].  Python
    integers are [Z], byte strings are [list byte], text ([str]) is a list
    of Unicode code points, exceptions are values of [exn] carried by the
    [res] type, and printing / sending are events collected in a trace. *)

From Stdlib.Strings Require Import String Byte.
From Stdlib Require Import ZArith List Bool Lia.
Import ListNotations.
Local Open Scope Z_scope.

(** ** The fragment of the Python runtime the two programs rely on *)

Module Py.

Definition bytes := list byte.

(** The integer a byte denotes, as [packet[i]] yields it. *)
Definition byte_val (b : byte) : Z := Z.of_N (Byte.to_N b).

Definition byte_of_Z (z : Z) : byte :=
  match Byte.of_N (Z.to_N (z mod 256)) with
  | Some b => b
  | None => x00
  end.

(** [str]: a sequence of code points. *)
Definition pystr := list Z.

Arguments byte_val : simpl never.
Arguments byte_of_Z : simpl never.

Definition pystr_eqb (a b : pystr) : bool :=
  if list_eq_dec Z.eq_dec a b then true else false.

Inductive exn :=
| IndexError
| KeyError
| OverflowError
| AttributeError
| ValueError
| UnicodeEncodeError
| UnicodeDecodeError
| SocketTimeout
| SocketError
| SystemExit (msg : pystr)
| SystemExitError (e : exn).

Inductive res (A : Type) :=
| Ok (a : A)
| Raise (e : exn).
Arguments Ok {A} a.
Arguments Raise {A} e.

Definition rbind {A B} (r : res A) (k : A -> res B) : res B :=
  match r with
  | Ok a => k a
  | Raise e => Raise e
  end.

(** [l[i]], negative indices counting from the end. *)
Definition getitem {A} (l : list A) (i : Z) : res A :=
  let n := Z.of_nat (length l) in
  let j := if i <? 0 then i + n else i in
  if (0 <=? j) && (j <? n) then
    match nth_error l (Z.to_nat j) with
    | Some a => Ok a
    | None => Raise IndexError
    end
  else Raise IndexError.

(** [l[lo:hi]] and [l[lo:]] for non-negative constant bounds. *)
Definition slice {A} (l : list A) (lo hi : nat) : list A :=
  firstn (hi - lo) (skipn lo l).

Definition slice_from {A} (l : list A) (lo : nat) : list A := skipn lo l.

(** [int.from_bytes(bs, 'big')] *)
Definition from_bytes_big (bs : bytes) : Z :=
  fold_left (fun acc b => acc * 256 + byte_val b) bs 0.

Fixpoint be_bytes (n : nat) (v : Z) : bytes :=
  match n with
  | O => []
  | S k => byte_of_Z (v / 256 ^ Z.of_nat k) :: be_bytes k v
  end.

(** [v.to_bytes(n, 'big')] (unsigned). *)
Definition to_bytes (n : nat) (v : Z) : res bytes :=
  if (v <? 0) || (256 ^ Z.of_nat n <=? v) then Raise OverflowError
  else Ok (be_bytes n v).

(** *** UTF-8 *)

Definition is_scalar (c : Z) : bool :=
  (0 <=? c) && (c <=? 0x10FFFF) && negb ((0xD800 <=? c) && (c <=? 0xDFFF)).

Definition enc_char (c : Z) : bytes :=
  if c <? 0x80 then [byte_of_Z c]
  else if c <? 0x800 then
    [byte_of_Z (0xC0 + c / 64); byte_of_Z (0x80 + c mod 64)]
  else if c <? 0x10000 then
    [byte_of_Z (0xE0 + c / 4096); byte_of_Z (0x80 + (c / 64) mod 64);
     byte_of_Z (0x80 + c mod 64)]
  else
    [byte_of_Z (0xF0 + c / 262144); byte_of_Z (0x80 + (c / 4096) mod 64);
     byte_of_Z (0x80 + (c / 64) mod 64); byte_of_Z (0x80 + c mod 64)].

(** [s.encode('utf-8')] *)
Definition utf8_encode (s : pystr) : res bytes :=
  if forallb is_scalar s then Ok (flat_map enc_char s)
  else Raise UnicodeEncodeError.

Definition is_cont (v : Z) : bool := (0x80 <=? v) && (v <=? 0xBF).

Definition second_ok3 (v0 v1 : Z) : bool :=
  ((if v0 =? 0xE0 then 0xA0 else 0x80) <=? v1)
  && (v1 <=? (if v0 =? 0xED then 0x9F else 0xBF)).

Definition second_ok4 (v0 v1 : Z) : bool :=
  ((if v0 =? 0xF0 then 0x90 else 0x80) <=? v1)
  && (v1 <=? (if v0 =? 0xF4 then 0x8F else 0xBF)).

(** The strict decoder: shortest form only, no surrogates, nothing above
    U+10FFFF.  [None] stands for [UnicodeDecodeError]. *)
Fixpoint utf8_decode_opt (bs : bytes) : option pystr :=
  match bs with
  | [] => Some []
  | b0 :: t0 =>
    let v0 := byte_val b0 in
    if v0 <? 0x80 then option_map (cons v0) (utf8_decode_opt t0)
    else if (0xC2 <=? v0) && (v0 <=? 0xDF) then
      match t0 with
      | b1 :: t1 =>
        let v1 := byte_val b1 in
        if is_cont v1
        then option_map (cons ((v0 - 0xC0) * 64 + (v1 - 0x80)))
                        (utf8_decode_opt t1)
        else None
      | _ => None
      end
    else if (0xE0 <=? v0) && (v0 <=? 0xEF) then
      match t0 with
      | b1 :: b2 :: t2 =>
        let v1 := byte_val b1 in
        let v2 := byte_val b2 in
        if second_ok3 v0 v1 && is_cont v2
        then option_map
               (cons ((v0 - 0xE0) * 4096 + (v1 - 0x80) * 64 + (v2 - 0x80)))
               (utf8_decode_opt t2)
        else None
      | _ => None
      end
    else if (0xF0 <=? v0) && (v0 <=? 0xF4) then
      match t0 with
      | b1 :: b2 :: b3 :: t3 =>
        let v1 := byte_val b1 in
        let v2 := byte_val b2 in
        let v3 := byte_val b3 in
        if second_ok4 v0 v1 && is_cont v2 && is_cont v3
        then option_map
               (cons ((v0 - 0xF0) * 262144 + (v1 - 0x80) * 4096
                      + (v2 - 0x80) * 64 + (v3 - 0x80)))
               (utf8_decode_opt t3)
        else None
      | _ => None
      end
    else None
  end.

(** [bs.decode('utf-8')] *)
Definition utf8_decode (bs : bytes) : res pystr :=
  match utf8_decode_opt bs with
  | Some s => Ok s
  | None => Raise UnicodeDecodeError
  end.

(** A string literal of the source: the code points its UTF-8 text denotes. *)
Definition u (s : string) : pystr :=
  match utf8_decode_opt (list_byte_of_string s) with
  | Some l => l
  | None => []
  end.

Arguments u : simpl never.

(** *** Integers to text and back *)

Fixpoint uint_digits (d : Decimal.uint) : pystr :=
  match d with
  | Decimal.Nil => []
  | Decimal.D0 d => 48 :: uint_digits d
  | Decimal.D1 d => 49 :: uint_digits d
  | Decimal.D2 d => 50 :: uint_digits d
  | Decimal.D3 d => 51 :: uint_digits d
  | Decimal.D4 d => 52 :: uint_digits d
  | Decimal.D5 d => 53 :: uint_digits d
  | Decimal.D6 d => 54 :: uint_digits d
  | Decimal.D7 d => 55 :: uint_digits d
  | Decimal.D8 d => 56 :: uint_digits d
  | Decimal.D9 d => 57 :: uint_digits d
  end.

(** [str(z)] *)
Definition str_of_Z (z : Z) : pystr :=
  if z <? 0 then 45 :: uint_digits (N.to_uint (Z.to_N (- z)))
  else uint_digits (N.to_uint (Z.to_N z)).

(** [f"{z:02}"]: zero filled to width two, the sign counting. *)
Definition format_02 (z : Z) : pystr :=
  let s := str_of_Z z in
  if (length s <? 2)%nat then 48 :: s else s.

(** *** [int(s)] on a [str]

    CPython rewrites the string to ASCII first and reads the number off
    the ASCII form.  For the rewriting it consults the Unicode character
    database; reading is subject to a limit on the number of digits.  The
    database and the limit change with the version and the configuration
    of the interpreter, so they are left open: whatever is proved holds
    for each of them. *)

Record interpreter := mk_interpreter {
  (** [Py_UNICODE_ISSPACE] *)
  isspace : Z -> bool;
  (** [Py_UNICODE_TODECIMAL], [None] for -1 *)
  todecimal : Z -> option Z;
  (** [sys.get_int_max_str_digits()]; 0 where there is no limit *)
  max_str_digits : Z
}.

(** One character of the ASCII form.  Characters below U+007F stay; from
    there on white space becomes a blank and a decimal digit its ASCII
    digit; [None] is where CPython gives up on the string. *)
Definition to_ascii (py : interpreter) (c : Z) : option Z :=
  if c <? 127 then Some c
  else if isspace py c then Some 32
  else match todecimal py c with
       | Some d => Some (48 + d)
       | None => None
       end.

Fixpoint map_to_ascii (py : interpreter) (s : pystr) : option pystr :=
  match s with
  | [] => Some []
  | c :: t =>
    match to_ascii py c, map_to_ascii py t with
    | Some a, Some r => Some (a :: r)
    | _, _ => None
    end
  end.

(** [_PyUnicode_TransformDecimalAndSpaceToASCII]: a string that is ASCII
    already is taken as it is. *)
Definition ascii_form (py : interpreter) (s : pystr) : option pystr :=
  if forallb (fun c => c <? 128) s then Some s else map_to_ascii py s.

(** [Py_ISSPACE]: the white space [PyLong_FromString] skips before and
    after the number. *)
Definition is_space (c : Z) : bool :=
  (c =? 32) || ((9 <=? c) && (c <=? 13)).

Definition is_digit (c : Z) : bool := (48 <=? c) && (c <=? 57).

Fixpoint skip_spaces (s : pystr) : pystr :=
  match s with
  | c :: t => if is_space c then skip_spaces t else s
  | [] => []
  end.

Definition trim (s : pystr) : pystr :=
  rev (skip_spaces (rev (skip_spaces s))).

Inductive int_state := AtStart | AfterDigit | AfterUnderscore.

Fixpoint int_digits (s : pystr) (st : int_state) (acc : Z) : option Z :=
  match s with
  | [] => match st with AfterDigit => Some acc | _ => None end
  | c :: t =>
    if is_digit c then int_digits t AfterDigit (10 * acc + (c - 48))
    else if c =? 95 then
      match st with
      | AfterDigit => int_digits t AfterUnderscore acc
      | _ => None
      end
    else None
  end.

(** [PyLong_FromString] in base 10, the digit limit apart: white space,
    an optional sign, digits with single underscores between them, white
    space, and nothing else. *)
Definition int_ascii (s : pystr) : option Z :=
  match trim s with
  | 43 :: t => int_digits t AtStart 0
  | 45 :: t => option_map Z.opp (int_digits t AtStart 0)
  | t => int_digits t AtStart 0
  end.

(** The limit applies to numbers of more than 640 digits. *)
Definition over_limit (py : interpreter) (s : pystr) : bool :=
  let digits := Z.of_nat (length (filter is_digit s)) in
  (640 <? digits) && (0 <? max_str_digits py)
  && (max_str_digits py <? digits).

(** [int(s)]; [None] stands for [ValueError]. *)
Definition int_opt (py : interpreter) (s : pystr) : option Z :=
  match ascii_form py s with
  | Some a => if over_limit py a then None else int_ascii a
  | None => None
  end.

Definition int_of_str (py : interpreter) (s : pystr) : res Z :=
  match int_opt py s with
  | Some z => Ok z
  | None => Raise ValueError
  end.

(** *** [datetime.datetime] *)

Record datetime := mk_datetime {
  year : Z;
  month : Z;
  day : Z;
  hour : Z;
  minute : Z
}.

(** The ranges the class guarantees for its fields ([MINYEAR] is 1 and
    [MAXYEAR] is 9999; the day is further bounded by the month). *)
Definition valid_datetime (d : datetime) : Prop :=
  1 <= year d <= 9999 /\ 1 <= month d <= 12 /\ 1 <= day d <= 31 /\
  0 <= hour d <= 23 /\ 0 <= minute d <= 59.

(** *** Programs: a trace of events and a result *)

Inductive event :=
| Print (line : pystr)
| SendTo (payload : bytes) (host : pystr) (port : Z)
| CloseSockets.

Definition prog (A : Type) : Type := (list event * res A)%type.

Definition ret {A} (a : A) : prog A := ([], Ok a).

Definition bind {A B} (p : prog A) (k : A -> prog B) : prog B :=
  match p with
  | (tr, Ok a) => let '(tr', r) := k a in (tr ++ tr', r)
  | (tr, Raise e) => (tr, Raise e)
  end.

Definition lift {A} (r : res A) : prog A := ([], r).

Definition print (line : pystr) : prog unit := ([Print line], Ok tt).

Definition raise {A} (e : exn) : prog A := ([], Raise e).

(** [sys.exit(msg)] *)
Definition sys_exit {A} (msg : pystr) : prog A := raise (SystemExit msg).

(** [try: p  except <those e with handler e = Some h>: h] *)
Definition try_except {A} (p : prog A) (handler : exn -> option (prog A))
  : prog A :=
  match p with
  | (tr, Raise e) =>
    match handler e with
    | Some h => let '(tr', r) := h in (tr ++ tr', r)
    | None => (tr, Raise e)
    end
  | _ => p
  end.

(** [try: p  finally: q], for a [q] that does not raise. *)
Definition try_finally {A} (p : prog A) (q : list event) : prog A :=
  let '(tr, r) := p in (tr ++ q, r).

(** What [sock.recvfrom(1024)] can do. *)
Inductive recv_result :=
| RecvTimeout
| RecvError
| Received (data : bytes) (host : pystr) (port : Z).

(** [sock.sendto(payload, (host, port))]; [ok] tells whether the socket
    layer accepts it. *)
Definition sendto (ok : bool) (payload : bytes) (host : pystr) (port : Z)
  : prog unit :=
  if ok then ([SendTo payload host port], Ok tt) else raise SocketError.

Definition trace {A} (p : prog A) : list event := fst p.
Definition result {A} (p : prog A) : res A := snd p.

(** The lines a run printed, in order. *)
Definition printed {A} (p : prog A) : list pystr :=
  flat_map (fun e => match e with Print l => [l] | _ => [] end) (trace p).

(** The payloads a run sent, in order. *)
Definition sent {A} (p : prog A) : list bytes :=
  flat_map (fun e => match e with SendTo b _ _ => [b] | _ => [] end)
           (trace p).

End Py.

Import Py.

Notation "x <- a ;; b" := (rbind a (fun x => b))
  (at level 61, a at next level, right associativity).
Notation "x <~ a ;; b" := (bind a (fun x => b))
  (at level 61, a at next level, right associativity).
Notation "a ;;; b" := (bind a (fun _ => b))
  (at level 61, right associativity).

Local Open Scope string_scope.
Local Open Scope list_scope.
Local Open Scope Z_scope.

(** ** src/server.py *)

Module Server.

Definition MAGIC_NUM : Z := 0x36FB.
Definition REQUEST_DATE : Z := 0x0001.
Definition REQUEST_TIME : Z := 0x0002.

Definition English : pystr := u "English".
Definition Maori : pystr := u "Māori".
Definition German : pystr := u "German".

Definition MONTH_NAMES : list (pystr * list pystr) :=
  [ (English,
     map u ["January"; "February"; "March"; "April"; "May"; "June";
            "July"; "August"; "September"; "October"; "November";
            "December"]);
    (Maori,
     map u ["Kohi-tātea"; "Hui-tanguru"; "Poutū-te-rangi"; "Paenga-whāwhā";
            "Haratua"; "Pipiri"; "Hōngingoi"; "Here-turi-kōkā"; "Mahuru";
            "Whiringa-ā-nuku"; "Whiringa-ā-rangi"; "Hakihea"]);
    (German,
     map u ["Januar"; "Februar"; "März"; "April"; "Mai"; "Juni";
            "Juli"; "August"; "September"; "Oktober"; "November";
            "Dezember"]) ].

(** [d[key]] on a dictionary with [str] keys. *)
Fixpoint dict_getitem {V} (d : list (pystr * V)) (key : pystr) : res V :=
  match d with
  | [] => Raise KeyError
  | (k, v) :: rest => if pystr_eqb k key then Ok v else dict_getitem rest key
  end.

(** The function returns [None] (here [Ok None]) when no [return] is
    reached. *)
Definition tell_it_what_it_is (date_time : datetime) (language : pystr)
    (request_type : Z) : res (option pystr) :=
  names <- dict_getitem MONTH_NAMES language ;;
  month <- getitem names (month date_time - 1) ;;
  let day := day date_time in
  let year := year date_time in
  let hour := hour date_time in
  let minute := minute date_time in
  let date_text :=
    if request_type =? REQUEST_DATE then
      if pystr_eqb language English then
        Some (u "Today's date is " ++ month ++ u " " ++ str_of_Z day
              ++ u ", " ++ str_of_Z year)
      else if pystr_eqb language Maori then
        Some (u "Ko te rā o tēnei rā ko " ++ month ++ u " " ++ str_of_Z day
              ++ u ", " ++ str_of_Z year)
      else if pystr_eqb language German then
        Some (u "Heute ist der " ++ str_of_Z day ++ u ". " ++ month ++ u " "
              ++ str_of_Z year)
      else None
    else None in
  match date_text with
  | Some s => Ok (Some s)
  | None =>
    if request_type =? REQUEST_TIME then
      if pystr_eqb language English then
        Ok (Some (u "The current time is " ++ format_02 hour ++ u ":"
                  ++ format_02 minute))
      else if pystr_eqb language Maori then
        Ok (Some (u "Ko te wā o tēnei wā " ++ format_02 hour ++ u ":"
                  ++ format_02 minute))
      else if pystr_eqb language German then
        Ok (Some (u "Die Uhrzeit ist " ++ format_02 hour ++ u ":"
                  ++ format_02 minute))
      else Ok None
    else Ok None
  end.

(** One turn of the [for port in self.ports] loop. *)
Definition check_one_port (py : interpreter) (port : pystr) : res unit :=
  match int_of_str py port with
  | Ok p =>
    if p <=? 0 then
      Raise (SystemExit (u "ERROR: Given port '" ++ str_of_Z p
                         ++ u "' is not a positive integer"))
    else if negb ((1024 <=? p) && (p <=? 64000)) then
      Raise (SystemExit (u "ERROR: Given port '" ++ str_of_Z p
                         ++ u "' is not in the range [1024, 64000]"))
    else Ok tt
  | Raise ValueError =>
    Raise (SystemExit (u "ERROR: Given port '" ++ port
                       ++ u "' is not a positive integer"))
  | Raise e => Raise e
  end.

Fixpoint for_each_port (py : interpreter) (ports : list pystr) : res unit :=
  match ports with
  | [] => Ok tt
  | port :: rest => _ <- check_one_port py port ;; for_each_port py rest
  end.

Fixpoint map_int (py : interpreter) (ports : list pystr) : res (list Z) :=
  match ports with
  | [] => Ok []
  | port :: rest =>
    p <- int_of_str py port ;; ps <- map_int py rest ;; Ok (p :: ps)
  end.

(** [ports] is [sys.argv[1:4]]; the result is the new [self.ports]. *)
Definition check_port (py : interpreter) (ports : list pystr)
  : res (list Z) :=
  p0 <- getitem ports 0 ;;
  p1 <- getitem ports 1 ;;
  duplicate <-
    (if pystr_eqb p0 p1 then Ok true
     else p2 <- getitem ports 2 ;;
          Ok (pystr_eqb p0 p2 || pystr_eqb p1 p2)) ;;
  if duplicate : bool then Raise (SystemExit (u "ERROR: Duplicate ports given"))
  else _ <- for_each_port py ports ;; map_int py ports.

Definition valid_dt_request (packet : bytes) : prog bool :=
  if negb (length packet =? 6)%nat then
    print (u "ERROR: Packet length incorrect for a DT_Request, dropping packet") ;;;
    ret false
  else
    b0 <~ lift (getitem packet 0) ;;
    b1 <~ lift (getitem packet 1) ;;
    let magic_num := Z.shiftl (byte_val b0) 8 + byte_val b1 in
    if negb (magic_num =? MAGIC_NUM) then
      print (u "ERROR: Packet magic number is incorrect, dropping packet") ;;;
      ret false
    else
      b2 <~ lift (getitem packet 2) ;;
      b3 <~ lift (getitem packet 3) ;;
      let packet_type := Z.shiftl (byte_val b2) 8 + byte_val b3 in
      if negb (packet_type =? 0x0001) then
        print (u "ERROR: Packet is not a DT_Request, dropping packet") ;;;
        ret false
      else
        b4 <~ lift (getitem packet 4) ;;
        b5 <~ lift (getitem packet 5) ;;
        let request_type := Z.shiftl (byte_val b4) 8 + byte_val b5 in
        if negb ((request_type =? REQUEST_DATE) || (request_type =? REQUEST_TIME))
        then
          print (u "ERROR: Packet has invalid type, dropping packet") ;;;
          ret false
        else ret true.

(** [text.encode('utf-8')] on the value [tell_it_what_it_is] returned. *)
Definition encode_text (text : option pystr) : res bytes :=
  match text with
  | Some s => utf8_encode s
  | None => Raise AttributeError
  end.

(** [current_time] is what [datetime.datetime.now()] returned. *)
Definition create_response (current_time : datetime) (language : pystr)
    (request_type : Z) : res bytes :=
  textual_representation <-
    tell_it_what_it_is current_time language request_type ;;
  let magic_no := MAGIC_NUM in
  let packet_type := 0x0002 in
  let lang_code :=
    if pystr_eqb language English then 0x0001
    else if pystr_eqb language Maori then 0x0002 else 0x0003 in
  let year := year current_time in
  let month := month current_time in
  let day := day current_time in
  let hour := hour current_time in
  let minute := minute current_time in
  encoded <- encode_text textual_representation ;;
  let length := Z.of_nat (length encoded) in
  f_magic <- to_bytes 2 magic_no ;;
  f_type <- to_bytes 2 packet_type ;;
  f_lang <- to_bytes 2 lang_code ;;
  f_year <- to_bytes 2 year ;;
  f_month <- to_bytes 1 month ;;
  f_day <- to_bytes 1 day ;;
  f_hour <- to_bytes 1 hour ;;
  f_minute <- to_bytes 1 minute ;;
  f_length <- to_bytes 1 length ;;
  f_text <- encode_text textual_representation ;;
  Ok (f_magic ++ f_type ++ f_lang ++ f_year ++ f_month ++ f_day ++ f_hour
      ++ f_minute ++ f_length ++ f_text).

(** The three sockets [open_and_bind_socket] leaves in the server; [select]
    only returns members of [self.sockets]. *)
Inductive sock := ensock | masock | gersock.

Definition get_language (s : sock) : pystr :=
  match s with
  | ensock => English
  | masock => Maori
  | gersock => German
  end.

(** A socket [select] reported readable, with what the environment does
    when the server reads the clock and uses the socket. *)
Record ready := mk_ready {
  r_sock : sock;
  r_recv : recv_result;
  r_now : datetime;
  r_send_ok : bool
}.

(** Line 136: [(data[4] << 8) + data[5]]. *)
Definition extract_request_type (data : bytes) : res Z :=
  d4 <- getitem data 4 ;;
  d5 <- getitem data 5 ;;
  Ok (Z.shiftl (byte_val d4) 8 + byte_val d5).

(** [except socket.error] around the send; [socket.timeout] is a
    subclass of [socket.error]. *)
Definition send_errors (e : exn) : option (prog unit) :=
  match e with
  | SocketError | SocketTimeout =>
    Some (print (u "ERROR: Sending failed, dropping packet"))
  | _ => None
  end.

(** Lines 141-149: the length test and the one send attempt. *)
Definition send_response (response : bytes) (host : pystr) (port : Z)
    (send_ok : bool) : prog unit :=
  (if 255 <=? Z.of_nat (length response)
   then sys_exit (u "ERROR: Text too long, dropping packet")
   else ret tt) ;;;
  try_except
    (sendto send_ok response host port ;;; print (u "Response sent"))
    send_errors.

(** [except socket.timeout] and [except socket.error] of the loop body. *)
Definition receive_errors (e : exn) : option (prog unit) :=
  match e with
  | SocketTimeout =>
    Some (print (u "ERROR: Receiving timed out, dropping packet"))
  | SocketError =>
    Some (print (u "ERROR: Receiving failed, dropping packet"))
  | _ => None
  end.

(** [except Exception as error]: [SystemExit] is not an [Exception], so the
    clause lets it through. *)
Definition any_exception (e : exn) : option (prog unit) :=
  match e with
  | SystemExit _ | SystemExitError _ => None
  | _ => Some ([CloseSockets], Raise (SystemExitError e))
  end.

(** The body of [for sock in readable]. *)
Definition handle_ready (r : ready) : prog unit :=
  try_except
    (match r_recv r with
     | RecvTimeout => raise SocketTimeout
     | RecvError => raise SocketError
     | Received data host port =>
       ok <~ valid_dt_request data ;;
       if negb ok then ret tt
       else
         let language := get_language (r_sock r) in
         request_type <~ lift (extract_request_type data) ;;
         print (language ++ u " received "
                ++ (if request_type =? REQUEST_DATE then u "date" else u "time")
                ++ u " request from " ++ host) ;;;
         response <~ lift (create_response (r_now r) language request_type) ;;
         send_response response host port (r_send_ok r)
     end)
    receive_errors.

Fixpoint for_readable (readable : list ready) : prog unit :=
  match readable with
  | [] => ret tt
  | r :: rest => handle_ready r ;;; for_readable rest
  end.

(** [while True], driven by the successive results of [select]; when they
    run out the server is blocked in [select]. *)
Fixpoint while_true (selects : list (list ready)) : prog unit :=
  match selects with
  | [] => print (u "Waiting for requests...")
  | readable :: rest =>
    print (u "Waiting for requests...") ;;;
    for_readable readable ;;;
    while_true rest
  end.

(** The loop inside [try: ... except Exception ... finally:
    self.close_sockets()]. *)
Definition waiting_for_request (selects : list (list ready)) : prog unit :=
  try_finally (try_except (while_true selects) any_exception) [CloseSockets].

End Server.

(** ** src/client.py *)

Module Client.

Definition MAGIC_NUM : Z := 0x36FB.
Definition REQUEST_DATE : Z := 0x0001.
Definition REQUEST_TIME : Z := 0x0002.

(** Lines 59-62: the request packet. *)
Definition build_request_packet (request_type : Z) : res bytes :=
  f_magic <- to_bytes 2 MAGIC_NUM ;;
  f_type <- to_bytes 2 0x0001 ;;
  f_kind <- to_bytes 2 request_type ;;
  Ok (f_magic ++ f_type ++ f_kind).

(** [host] and [port] are [self.address]; [sock_ok] and [send_ok] tell
    whether creating the socket and sending succeed. *)
Definition create_and_send_packet (request_type : Z) (host : pystr)
    (port : Z) (sock_ok send_ok : bool) : prog unit :=
  (if sock_ok then ret tt else sys_exit (u "ERROR: Socket creation failed")) ;;;
  packet <~ lift (build_request_packet request_type) ;;
  try_except
    (sendto send_ok packet host port ;;;
     if request_type =? REQUEST_DATE then
       print (u "Date request sent to " ++ host ++ u ":" ++ str_of_Z port)
     else
       print (u "Time request sent to " ++ host ++ u ":" ++ str_of_Z port))
    (fun e =>
       match e with
       | SocketError | SocketTimeout =>
         Some ([CloseSockets], Raise (SystemExit (u "ERROR: Sending failed")))
       | _ => None
       end).

(** The fields both [process_packet] and [print_packet_stuff] read off the
    packet, by the same nine assignments. *)
Record fields := mk_fields {
  magic_no : Z;
  packet_type : Z;
  language_type : Z;
  f_year : Z;
  f_month : Z;
  f_day : Z;
  f_hour : Z;
  f_minute : Z;
  f_length : Z
}.

Definition read_fields (received_packet : bytes) : res fields :=
  let magic_no := from_bytes_big (slice received_packet 0 2) in
  let packet_type := from_bytes_big (slice received_packet 2 4) in
  let language_type := from_bytes_big (slice received_packet 4 6) in
  let year := from_bytes_big (slice received_packet 6 8) in
  month <- getitem received_packet 8 ;;
  day <- getitem received_packet 9 ;;
  hour <- getitem received_packet 10 ;;
  minute <- getitem received_packet 11 ;;
  length <- getitem received_packet 12 ;;
  Ok (mk_fields magic_no packet_type language_type year (byte_val month)
        (byte_val day) (byte_val hour) (byte_val minute) (byte_val length)).

(** [languages.get(language_type)] *)
Definition language_select (language_type : Z) : option pystr :=
  if language_type =? 0x0001 then Some (u "English")
  else if language_type =? 0x0002 then Some (u "Māori")
  else if language_type =? 0x0003 then Some (u "German")
  else None.

(** How an f-string renders the result of [language_select]. *)
Definition format_language (name : option pystr) : pystr :=
  match name with
  | Some s => s
  | None => u "None"
  end.

Definition print_packet_stuff (received_packet : bytes) : prog unit :=
  f <~ lift (read_fields received_packet) ;;
  text <~ try_except
            (lift (utf8_decode (slice_from received_packet 13)))
            (fun e =>
               match e with
               | UnicodeDecodeError =>
                 Some (sys_exit (u "ERROR: Packet has invalid text"))
               | _ => None
               end) ;;
  print (format_language (language_select (language_type f))
         ++ u " response received:") ;;;
  print (u "Text: " ++ text) ;;;
  print (u "Date: " ++ str_of_Z (f_day f) ++ u "/" ++ str_of_Z (f_month f)
         ++ u "/" ++ str_of_Z (f_year f)) ;;;
  print (u "Time: " ++ format_02 (f_hour f) ++ u ":" ++ format_02 (f_minute f)).

Definition process_packet (received_packet : bytes) : prog unit :=
  (if (length received_packet <? 13)%nat
   then sys_exit (u "ERROR: Packet is too small to be a DT_Response")
   else ret tt) ;;;
  f <~ lift (read_fields received_packet) ;;
  (if negb (magic_no f =? MAGIC_NUM) then
     sys_exit (u "ERROR: Packet magic number is incorrect")
   else if negb (packet_type f =? 0x0002) then
     sys_exit (u "ERROR: Packet is not a DT_Response")
   else if negb ((language_type f =? 0x0001) || (language_type f =? 0x0002)
                 || (language_type f =? 0x0003)) then
     sys_exit (u "ERROR: Packet has invalid language")
   else if f_year f >? 2100 then
     sys_exit (u "ERROR: Packet has invalid year")
   else if (f_month f <? 1) || (f_month f >? 12) then
     sys_exit (u "ERROR: Packet has invalid month")
   else if (f_day f <? 1) || (f_day f >? 31) then
     sys_exit (u "ERROR: Packet has invalid day")
   else if (f_hour f <? 0) || (f_hour f >? 23) then
     sys_exit (u "ERROR: Packet has invalid hour")
   else if (f_minute f <? 0) || (f_minute f >? 59) then
     sys_exit (u "ERROR: Packet has invalid minute")
   else if negb (Z.of_nat (length received_packet) =? 13 + f_length f) then
     sys_exit (u "ERROR: Packet text length is incorrect")
   else ret tt) ;;;
  print_packet_stuff received_packet.

(** [recv] is what [self.sock.recvfrom(1024)] does within the one second
    allowed. *)
Definition receive_and_process_response (recv : recv_result) : prog unit :=
  received_packet <~
    try_finally
      (match recv with
       | RecvTimeout => sys_exit (u "ERROR: Receiving timed out")
       | RecvError => sys_exit (u "ERROR: Receiving failed")
       | Received data _ _ => ret data
       end)
      [CloseSockets] ;;
  process_packet received_packet.

(** [main] from the point where the arguments have been taken apart:
    [request_type] is what [user_chooses_parameter] stored and [host],
    [port] the address [check_hostname_and_port] resolved. *)
Definition session (request_type : Z) (host : pystr) (port : Z)
    (sock_ok send_ok : bool) (recv : recv_result) : prog unit :=
  create_and_send_packet request_type host port sock_ok send_ok ;;;
  receive_and_process_response recv.

End Client.

(** ** The wire formats as the specification tabulates them

    Fields are read by offset, multi-byte integers big-endian.  These
    definitions follow the specification's tables and lists of checks, and
    are what the code above is compared with. *)

Module Wire.

Definition u8 (pkt : bytes) (off : nat) : Z := byte_val (nth off pkt x00).

Definition u16 (pkt : bytes) (off : nat) : Z :=
  256 * u8 pkt off + u8 pkt (S off).

Inductive reject_reason :=
| BadLength
| BadMagic
| BadPacketType
| BadRequestKind.

(** The request validator's four checks in their fixed order; the first
    one that fails decides. *)
Definition first_failed_check (d : bytes) : option reject_reason :=
  if negb (length d =? 6)%nat then Some BadLength
  else if negb (u16 d 0 =? 0x36FB) then Some BadMagic
  else if negb (u16 d 2 =? 0x0001) then Some BadPacketType
  else if negb (existsb (Z.eqb (u16 d 4)) [0x0001; 0x0002])
       then Some BadRequestKind
  else None.

Definition reject_message (r : reject_reason) : pystr :=
  match r with
  | BadLength =>
    u "ERROR: Packet length incorrect for a DT_Request, dropping packet"
  | BadMagic => u "ERROR: Packet magic number is incorrect, dropping packet"
  | BadPacketType => u "ERROR: Packet is not a DT_Request, dropping packet"
  | BadRequestKind => u "ERROR: Packet has invalid type, dropping packet"
  end.

(** The text bytes of a response: everything from offset 13. *)
Definition text_bytes (pkt : bytes) : bytes := skipn 13 pkt.

(** The conditions under which a response packet is to be rejected. *)
Definition response_rejected (pkt : bytes) : Prop :=
  (length pkt < 13)%nat
  \/ u16 pkt 0 <> 0x36FB
  \/ u16 pkt 2 <> 0x0002
  \/ ~ In (u16 pkt 4) [1; 2; 3]
  \/ u16 pkt 6 > 2100
  \/ ~ (1 <= u8 pkt 8 <= 12)
  \/ ~ (1 <= u8 pkt 9 <= 31)
  \/ ~ (0 <= u8 pkt 10 <= 23)
  \/ ~ (0 <= u8 pkt 11 <= 59)
  \/ Z.of_nat (length pkt) <> 13 + u8 pkt 12
  \/ utf8_decode_opt (text_bytes pkt) = None.

(** All validation checks on a response pass. *)
Definition response_valid (pkt : bytes) : Prop :=
  (13 <= length pkt)%nat
  /\ u16 pkt 0 = 0x36FB
  /\ u16 pkt 2 = 0x0002
  /\ In (u16 pkt 4) [1; 2; 3]
  /\ u16 pkt 6 <= 2100
  /\ 1 <= u8 pkt 8 <= 12
  /\ 1 <= u8 pkt 9 <= 31
  /\ 0 <= u8 pkt 10 <= 23
  /\ 0 <= u8 pkt 11 <= 59
  /\ Z.of_nat (length pkt) = 13 + u8 pkt 12.

(** The language a language code names. *)
Definition language_name (code : Z) : pystr :=
  if code =? 1 then u "English"
  else if code =? 2 then u "Māori"
  else u "German".

(** What the client prints for a response it accepts. *)
Definition report (pkt : bytes) (text : pystr) : list pystr :=
  [ language_name (u16 pkt 4) ++ u " response received:";
    u "Text: " ++ text;
    u "Date: " ++ str_of_Z (u8 pkt 9) ++ u "/" ++ str_of_Z (u8 pkt 8)
      ++ u "/" ++ str_of_Z (u16 pkt 6);
    u "Time: " ++ format_02 (u8 pkt 10) ++ u ":" ++ format_02 (u8 pkt 11) ].

(** The line the client prints once its request is on its way. *)
Definition request_line (request_type : Z) (host : pystr) (port : Z)
  : pystr :=
  (if request_type =? 1 then u "Date" else u "Time")
    ++ u " request sent to " ++ host ++ u ":" ++ str_of_Z port.

(** The languages the server has a socket for. *)
Definition supported (language : pystr) : Prop :=
  In language [Server.English; Server.Maori; Server.German].

(** The language codes of the DT-Response table. *)
Definition language_code (language : pystr) : Z :=
  if pystr_eqb language Server.English then 1
  else if pystr_eqb language Server.Maori then 2 else 3.

(** The fixed fields of a packet, read by offset. *)
Definition fields_of (pkt : bytes) : Client.fields :=
  Client.mk_fields (u16 pkt 0) (u16 pkt 2) (u16 pkt 4) (u16 pkt 6)
    (u8 pkt 8) (u8 pkt 9) (u8 pkt 10) (u8 pkt 11) (u8 pkt 12).

(** The run of the client's decoder on a response it accepts. *)
Definition accepted_run (pkt : bytes) (text : pystr) : prog unit :=
  (map Print (report pkt text), Ok tt).

(** The 13 bytes in front of the text of a DT-Response, [n] being the
    text length. *)
Definition response_header (now : datetime) (language : pystr) (n : Z)
  : bytes :=
  [ byte_of_Z (0x36FB / 256); byte_of_Z 0x36FB;
    byte_of_Z (2 / 256); byte_of_Z 2;
    byte_of_Z (language_code language / 256);
    byte_of_Z (language_code language);
    byte_of_Z (year now / 256); byte_of_Z (year now);
    byte_of_Z (month now); byte_of_Z (day now); byte_of_Z (hour now);
    byte_of_Z (minute now); byte_of_Z n ].

Definition built_response (now : datetime) (language : pystr) (enc : bytes)
  : bytes :=
  response_header now language (Z.of_nat (length enc)) ++ enc.

(** Month [m] of [language] has a name of at most 16 characters, all of
    them scalar values. *)
Definition month_name_ok (language : pystr) (m : Z) : bool :=
  match Server.dict_getitem Server.MONTH_NAMES language with
  | Ok names =>
    match getitem names (m - 1) with
    | Ok name => (length name <=? 16)%nat && forallb is_scalar name
    | Raise _ => false
    end
  | Raise _ => false
  end.

End Wire.

(** ** Concrete inputs used to exercise the theorems *)

Module Sample.

Definition now : datetime := mk_datetime 2024 9 30 7 5.

Definition request : bytes := [x36; xfb; x00; x01; x00; x02].

Definition text : pystr := u "Ko te rā o tēnei rā ko Mahuru 30, 2024".

(** What the server answers to a date request on the Māori socket at
    [now]. *)
Definition response : bytes :=
  match Server.create_response now Server.Maori Server.REQUEST_DATE with
  | Ok pkt => pkt
  | Raise _ => []
  end.

Definition host : pystr := u "127.0.0.1".

Definition oversized : bytes := repeat x00 255.

(** A five-byte datagram on the German socket, then a date request on the
    Māori one. *)
Definition selects : list (list Server.ready) :=
  [ [Server.mk_ready Server.gersock
       (Received [x36; xfb; x00; x01; x00] host 40000) now true];
    [Server.mk_ready Server.masock
       (Received [x36; xfb; x00; x01; x00; x01] host 40001) now true] ].

End Sample.

(** ** src/server.py: start-up

    The functions that run before the loop.  Sockets are created, bound and
    closed here one by one, so the trace records each of these actions and
    the state is [self.sockets]. *)

Module ServerStart.

Inductive action :=
| Say (line : pystr)
| Open (s : Server.sock)
| Bind (s : Server.sock) (port : Z)
| Close (s : Server.sock).

(** [self.sockets] *)
Definition sockets := list Server.sock.

(** A method of the server: what it does, how it ends, and the
    [self.sockets] it leaves (also when it raises). *)
Definition step (A : Type) : Type :=
  sockets -> (list action * res A * sockets)%type.

Definition sret {A} (a : A) : step A := fun st => ([], Ok a, st).

Definition sbind {A B} (p : step A) (k : A -> step B) : step B :=
  fun st =>
    match p st with
    | (tr, Ok a, st') => let '(tr', r, st'') := k a st' in (tr ++ tr', r, st'')
    | (tr, Raise e, st') => (tr, Raise e, st')
    end.

Definition emit (a : action) : step unit := fun st => ([a], Ok tt, st).

Definition sraise {A} (e : exn) : step A := fun st => ([], Raise e, st).

Definition slift {A} (r : res A) : step A := fun st => ([], r, st).

(** [try: p  except <those e with handler e = Some h>: h] *)
Definition scatch {A} (p : step A) (handler : exn -> option (step A))
  : step A :=
  fun st =>
    match p st with
    | (tr, Raise e, st') =>
      match handler e with
      | Some h => let '(tr', r, st'') := h st' in (tr ++ tr', r, st'')
      | None => (tr, Raise e, st')
      end
    | done => done
    end.

(** What the operating system does when the server creates and binds the
    socket of each language. *)
Record socket_env := mk_socket_env {
  create_ok : Server.sock -> bool;
  bind_ok : Server.sock -> bool
}.

(** [socket.socket(socket.AF_INET, socket.SOCK_DGRAM)] *)
Definition socket_create (env : socket_env) (s : Server.sock) : step unit :=
  if create_ok env s then emit (Open s) else sraise SocketError.

(** [s.bind(("localhost", port))] *)
Definition socket_bind (env : socket_env) (s : Server.sock) (port : Z)
  : step unit :=
  if bind_ok env s then emit (Bind s port) else sraise SocketError.

(** [self.sockets.append(s)] *)
Definition sockets_append (s : Server.sock) : step unit :=
  fun st => ([], Ok tt, st ++ [s]).

Definition close_sockets : step unit :=
  fun st => (map Close st, Ok tt, []).

(** Lines 54-57, with [argv] for [sys.argv]. *)
Definition check_number_of_arguments (argv : list pystr) : res unit :=
  if negb (length argv =? 4)%nat
  then Raise (SystemExit
                (u "ERROR: Incorrect number of command line arguments"))
  else Ok tt.

(** The bare [except:] around each [bind]. *)
Definition bind_failed (e : exn) : option (step unit) :=
  Some (sbind close_sockets
          (fun _ => sraise (SystemExit (u "ERROR: Socket binding failed")))).

(** [except socket.error] around the whole method. *)
Definition create_failed (e : exn) : option (step unit) :=
  match e with
  | SocketError | SocketTimeout =>
    Some (sbind close_sockets
            (fun _ => sraise (SystemExit (u "ERROR: Socket creation failed"))))
  | _ => None
  end.

(** What each block prints first. *)
Definition binding_line (name : pystr) (port : Z) : action :=
  Say (u "Binding " ++ name ++ u " to port " ++ str_of_Z port).

(** One of the three blocks of [open_and_bind_socket]: the language
    [name], its socket [s] and the index [i] of its port. *)
Definition bind_language (env : socket_env) (ports : list Z) (name : pystr)
    (s : Server.sock) (i : Z) : step unit :=
  sbind (slift (getitem ports i)) (fun port =>
  sbind (emit (binding_line name port)) (fun _ =>
  sbind (socket_create env s) (fun _ =>
  scatch
    (sbind (sockets_append s) (fun _ =>
     sbind (slift (getitem ports i)) (fun port' =>
     socket_bind env s port')))
    bind_failed))).

(** [ports] is [self.ports] as [check_port] left it. *)
Definition open_and_bind_socket (env : socket_env) (ports : list Z)
  : step unit :=
  scatch
    (sbind (bind_language env ports Server.English Server.ensock 0) (fun _ =>
     sbind (bind_language env ports Server.Maori Server.masock 1) (fun _ =>
     bind_language env ports Server.German Server.gersock 2)))
    create_failed.

(** How [main] ends: the actions of the start-up, then the run of the
    loop if the start-up got that far. *)
Record run := mk_run {
  startup : list action;
  serving : prog unit
}.

(** [argv] is [sys.argv]; [selects] drives the loop as in
    [Server.waiting_for_request]; [py] is the interpreter, for [int]. *)
Definition main (py : interpreter) (argv : list pystr) (env : socket_env)
    (selects : list (list Server.ready)) : run :=
  match
    rbind (check_number_of_arguments argv) (fun _ =>
    let ports := slice argv 1 4 in
    rbind (check_number_of_arguments argv) (fun _ =>
    Server.check_port py ports))
  with
  | Raise e => mk_run [] ([], Raise e)
  | Ok ports =>
    match open_and_bind_socket env ports [] with
    | (acts, Ok _, _) => mk_run acts (Server.waiting_for_request selects)
    | (acts, Raise e, _) => mk_run acts ([], Raise e)
    end
  end.

(** The parts of what a method returns. *)
Definition actions {A} (x : list action * res A * sockets) : list action :=
  fst (fst x).

Definition outcome {A} (x : list action * res A * sockets) : res A :=
  snd (fst x).

Definition sockets_left {A} (x : list action * res A * sockets) : sockets :=
  snd x.

(** The sockets a trace opened, and those it closed, in order. *)
Definition opened (tr : list action) : list Server.sock :=
  flat_map (fun a => match a with Open s => [s] | _ => [] end) tr.

Definition closed (tr : list action) : list Server.sock :=
  flat_map (fun a => match a with Close s => [s] | _ => [] end) tr.

Definition bound (tr : list action) : list (Server.sock * Z) :=
  flat_map (fun a => match a with Bind s p => [(s, p)] | _ => [] end) tr.

End ServerStart.

(** ** src/client.py: the command line

    [str.lower] and [socket.getaddrinfo] are taken as they come: the
    functions below are written for any interpreter, any lower-casing
    function and any resolver. *)

Module ClientStart.

Section Runtime.

(** The interpreter, for [int]. *)
Variable py : interpreter.

(** [s.lower()] *)
Variable lower : pystr -> pystr.

(** [socket.getaddrinfo(host, port, AF_INET, SOCK_DGRAM)[0][4]], the
    address of the first result; [None] stands for [socket.gaierror]. *)
Variable getaddrinfo : pystr -> Z -> option (pystr * Z).

Definition check_number_of_arguments (args : list pystr) : res unit :=
  if negb (length args =? 4)%nat
  then Raise (SystemExit
                (u "ERROR: Incorrect number of command line arguments"))
  else Ok tt.

(** The result is the new [self.request_type]. *)
Definition user_chooses_parameter (args : list pystr) : res Z :=
  arg <- getitem args 1 ;;
  let request_type_str := lower arg in
  if pystr_eqb request_type_str (u "date") then Ok Client.REQUEST_DATE
  else if pystr_eqb request_type_str (u "time") then Ok Client.REQUEST_TIME
  else Raise (SystemExit (u "ERROR: Request type '" ++ request_type_str
                          ++ u "' is not valid")).

(** The first [try] of [check_hostname_and_port], on [self.args[3]]; the
    result is the new [self.port]. *)
Definition check_port_argument (arg : pystr) : res Z :=
  match int_of_str py arg with
  | Ok port =>
    if port <? 0 then
      Raise (SystemExit (u "ERROR: Given port '" ++ str_of_Z port
                         ++ u "' is not a positive integer"))
    else if (port <? 1024) || (port >? 64000) then
      Raise (SystemExit (u "ERROR: Given port '" ++ str_of_Z port
                         ++ u "' is not in the range [1024, 64000]"))
    else Ok port
  | Raise ValueError =>
    Raise (SystemExit (u "ERROR: Given port '" ++ arg
                       ++ u "' is not a positive integer"))
  | Raise e => Raise e
  end.

(** The result is the new [self.address]. *)
Definition check_hostname_and_port (args : list pystr) : res (pystr * Z) :=
  arg <- getitem args 3 ;;
  port <- check_port_argument arg ;;
  hostname <- getitem args 2 ;;
  match getaddrinfo hostname port with
  | Some address => Ok address
  | None => Raise (SystemExit (u "ERROR: Hostname resolution failed"))
  end.

(** [args] is [sys.argv]; [sock_ok], [send_ok] and [recv] are what the
    socket layer does, as in [Client.session]. *)
Definition main (args : list pystr) (sock_ok send_ok : bool)
    (recv : recv_result) : prog unit :=
  lift (check_number_of_arguments args) ;;;
  request_type <~ lift (user_chooses_parameter args) ;;
  address <~ lift (check_hostname_and_port args) ;;
  Client.create_and_send_packet request_type (fst address) (snd address)
    sock_ok send_ok ;;;
  Client.receive_and_process_response recv.

End Runtime.

(** The lower-casing of ASCII letters, which is what [str.lower] does on
    ASCII text. *)
Definition ascii_lower (s : pystr) : pystr :=
  map (fun c => if (65 <=? c) && (c <=? 90) then c + 32 else c) s.

End ClientStart.

(** ** The client's checks of a response, one by one *)

Module Verdict.

Inductive response_error :=
| TooSmall
| WrongMagic
| NotResponse
| BadLanguage
| BadYear
| BadMonth
| BadDay
| BadHour
| BadMinute
| BadTextLength
| BadText.

(** The message [sys.exit] is given for each. *)
Definition message (e : response_error) : pystr :=
  match e with
  | TooSmall => u "ERROR: Packet is too small to be a DT_Response"
  | WrongMagic => u "ERROR: Packet magic number is incorrect"
  | NotResponse => u "ERROR: Packet is not a DT_Response"
  | BadLanguage => u "ERROR: Packet has invalid language"
  | BadYear => u "ERROR: Packet has invalid year"
  | BadMonth => u "ERROR: Packet has invalid month"
  | BadDay => u "ERROR: Packet has invalid day"
  | BadHour => u "ERROR: Packet has invalid hour"
  | BadMinute => u "ERROR: Packet has invalid minute"
  | BadTextLength => u "ERROR: Packet text length is incorrect"
  | BadText => u "ERROR: Packet has invalid text"
  end.

(** The first check a packet fails, the fields read by offset. *)
Definition first_error (pkt : bytes) : option response_error :=
  if (length pkt <? 13)%nat then Some TooSmall
  else if negb (Wire.u16 pkt 0 =? 0x36FB) then Some WrongMagic
  else if negb (Wire.u16 pkt 2 =? 2) then Some NotResponse
  else if negb (existsb (Z.eqb (Wire.u16 pkt 4)) [1; 2; 3])
       then Some BadLanguage
  else if 2100 <? Wire.u16 pkt 6 then Some BadYear
  else if negb ((1 <=? Wire.u8 pkt 8) && (Wire.u8 pkt 8 <=? 12))
       then Some BadMonth
  else if negb ((1 <=? Wire.u8 pkt 9) && (Wire.u8 pkt 9 <=? 31))
       then Some BadDay
  else if 23 <? Wire.u8 pkt 10 then Some BadHour
  else if 59 <? Wire.u8 pkt 11 then Some BadMinute
  else if negb (Z.of_nat (length pkt) =? 13 + Wire.u8 pkt 12)
       then Some BadTextLength
  else match utf8_decode_opt (Wire.text_bytes pkt) with
       | None => Some BadText
       | Some _ => None
       end.

End Verdict.

(** ** What a run shows *)

Module Observe.

(** How often a run closed the client's socket. *)
Definition closes {A} (p : prog A) : nat :=
  length (filter (fun e => match e with CloseSockets => true | _ => false end)
                 (trace p)).

(** The number of datagrams the loop was handed. *)
Definition datagrams (selects : list (list Server.ready)) : nat :=
  length (concat selects).

(** The line the server prints for a request it accepted. *)
Definition request_note (language : pystr) (request_type : Z) (host : pystr)
  : pystr :=
  language ++ u " received "
    ++ (if request_type =? Server.REQUEST_DATE then u "date" else u "time")
    ++ u " request from " ++ host.

(** The name of month [m] in [language] encodes to at most 17 bytes. *)
Definition month_bytes_ok (language : pystr) (m : Z) : bool :=
  match Server.dict_getitem Server.MONTH_NAMES language with
  | Ok names =>
    match getitem names (m - 1) with
    | Ok name => (length (flat_map enc_char name) <=? 17)%nat
    | Raise _ => false
    end
  | Raise _ => false
  end.

End Observe.

(** ** More concrete inputs *)

Module Scenario.

(** An operating system that grants every socket and every bind. *)
Definition cooperative : ServerStart.socket_env :=
  ServerStart.mk_socket_env (fun _ => true) (fun _ => true).

(** One where the port of the Māori socket is taken. *)
Definition port_taken : ServerStart.socket_env :=
  ServerStart.mk_socket_env
    (fun _ => true)
    (fun s => match s with Server.masock => false | _ => true end).

Definition server_argv : list pystr :=
  map u ["server.py"; "5000"; "5001"; "5002"].

Definition client_argv : list pystr :=
  map u ["client.py"; "TIME"; "localhost"; "5001"].

(** A resolver that knows every host as the loopback address. *)
Definition loopback (hostname : pystr) (port : Z) : option (pystr * Z) :=
  Some (u "127.0.0.1", port).

(** An interpreter: CPython's white space from U+007F on, of the digits
    beyond ASCII the Arabic-Indic and the full-width ones, and the default
    limit of 4300 digits. *)
Definition interp : interpreter :=
  mk_interpreter
    (fun c =>
       existsb (Z.eqb c)
         [0x85; 0xA0; 0x1680; 0x2028; 0x2029; 0x202F; 0x205F; 0x3000]
       || ((0x2000 <=? c) && (c <=? 0x200A)))
    (fun c =>
       if (0x660 <=? c) && (c <=? 0x669) then Some (c - 0x660)
       else if (0xFF10 <=? c) && (c <=? 0xFF19) then Some (c - 0xFF10)
       else None)
    4300.

Definition far_future : datetime := mk_datetime 2101 1 1 0 0.

Definition french : pystr := u "French".

End Scenario.

Import Wire.

(** * Properties *)

(** ** Bytes and indexing *)

Lemma byte_val_range (b : byte) : 0 <= byte_val b <= 255.
Proof.
  unfold byte_val. pose proof (Byte.to_N_bounded b). lia.
Qed.

Lemma byte_val_of_Z (z : Z) : 0 <= z <= 255 -> byte_val (byte_of_Z z) = z.
Proof.
  intros Hz. unfold byte_val, byte_of_Z.
  rewrite Z.mod_small by lia.
  destruct (Byte.of_N (Z.to_N z)) as [b|] eqn:E.
  - apply Byte.to_of_N in E. rewrite E. lia.
  - apply Byte.of_N_None_iff in E. lia.
Qed.

Lemma getitem_nth {A} (l : list A) (i : nat) (d : A) :
  (i < length l)%nat -> getitem l (Z.of_nat i) = Ok (nth i l d).
Proof.
  intros H. unfold getitem.
  destruct (Z.ltb_spec (Z.of_nat i) 0); [lia|].
  destruct (Z.leb_spec 0 (Z.of_nat i)); [|lia].
  destruct (Z.ltb_spec (Z.of_nat i) (Z.of_nat (length l))); [|lia].
  cbn [andb]. rewrite Nat2Z.id.
  rewrite (nth_error_nth' l d H). reflexivity.
Qed.

Lemma shift8 (a b : Z) : Z.shiftl a 8 + b = 256 * a + b.
Proof. rewrite Z.shiftl_mul_pow2 by lia. change (2 ^ 8) with 256. lia. Qed.

Lemma getitem_u8 (pkt : bytes) (i : nat) :
  (i < length pkt)%nat -> getitem pkt (Z.of_nat i) = Ok (nth i pkt x00).
Proof. apply getitem_nth. Qed.

Ltac getitems :=
  repeat match goal with
  | |- context [getitem ?l ?z] =>
    let n := eval vm_compute in (Z.to_nat z) in
    change (getitem l z) with (getitem l (Z.of_nat n));
    rewrite (getitem_u8 l n) by (simpl; lia)
  end.

(** ** The request validator *)

(** The code's validator is the specification's ordered list of checks. *)
Lemma valid_dt_request_spec (d : bytes) :
  Server.valid_dt_request d =
  match first_failed_check d with
  | Some reason => ([Print (reject_message reason)], Ok false)
  | None => ([], Ok true)
  end.
Proof.
  unfold Server.valid_dt_request, first_failed_check.
  destruct (negb (length d =? 6)%nat) eqn:Hlen; [reflexivity|].
  apply negb_false_iff, Nat.eqb_eq in Hlen.
  getitems. cbn [lift bind]. rewrite !shift8.
  fold (u8 d 0) (u8 d 1) (u8 d 2) (u8 d 3) (u8 d 4) (u8 d 5).
  fold (u16 d 0) (u16 d 2) (u16 d 4).
  unfold Server.MAGIC_NUM.
  destruct (negb (u16 d 0 =? 14075)) eqn:Hm; [reflexivity|].
  cbn [app].
  destruct (negb (u16 d 2 =? 1)) eqn:Ht; [reflexivity|].
  cbn [app existsb].
  unfold Server.REQUEST_DATE, Server.REQUEST_TIME.
  rewrite orb_false_r.
  destruct (negb ((u16 d 4 =? 1) || (u16 d 4 =? 2))); reflexivity.
Qed.

Lemma first_failed_check_none (d : bytes) :
  first_failed_check d = None <->
  length d = 6%nat /\ u16 d 0 = 0x36FB /\ u16 d 2 = 1
  /\ (u16 d 4 = 1 \/ u16 d 4 = 2).
Proof.
  unfold first_failed_check. cbn [existsb]. rewrite orb_false_r.
  destruct (Nat.eqb_spec (length d) 6); cbn [negb];
    [|split; [discriminate | tauto]].
  destruct (Z.eqb_spec (u16 d 0) 14075); cbn [negb];
    [|split; [discriminate | tauto]].
  destruct (Z.eqb_spec (u16 d 2) 1); cbn [negb];
    [|split; [discriminate | tauto]].
  destruct (Z.eqb_spec (u16 d 4) 1); cbn [negb orb]; [tauto|].
  destruct (Z.eqb_spec (u16 d 4) 2); cbn [negb orb]; [tauto|].
  split; [discriminate | tauto].
Qed.

Lemma extract_request_type_spec (d : bytes) :
  (6 <= length d)%nat -> Server.extract_request_type d = Ok (u16 d 4).
Proof.
  intros H. unfold Server.extract_request_type. getitems.
  cbn [rbind]. rewrite shift8. reflexivity.
Qed.

(** C4.  The server's request validator applies its four checks in the fixed
    order length = 6, magic = 0x36FB, packetType = 0x0001, requestKind in
    {1, 2}, and the first failing one decides: the validator prints that
    check's message and returns [False] without raising, and the loop body
    then sends nothing and returns normally.  Only a datagram passing all
    four is accepted. *)
Theorem request_validator_checks_in_order :
  forall (s : Server.sock) (d : bytes) (host : pystr) (port : Z)
         (now : datetime) (send_ok : bool),
    match first_failed_check d with
    | Some reason =>
      Server.valid_dt_request d = ([Print (reject_message reason)], Ok false)
      /\ Server.handle_ready
           (Server.mk_ready s (Received d host port) now send_ok)
         = ([Print (reject_message reason)], Ok tt)
    | None =>
      Server.valid_dt_request d = ([], Ok true)
      /\ length d = 6%nat /\ u16 d 0 = 0x36FB /\ u16 d 2 = 0x0001
      /\ (u16 d 4 = 0x0001 \/ u16 d 4 = 0x0002)
    end.
Proof.
  intros s d host port now send_ok.
  pose proof (valid_dt_request_spec d) as Hv.
  pose proof (first_failed_check_none d) as Hn.
  destruct (first_failed_check d) as [reason|].
  - split; [exact Hv|].
    unfold Server.handle_ready. cbn [Server.r_recv].
    rewrite Hv. reflexivity.
  - split; [exact Hv|]. apply Hn. reflexivity.
Qed.

(** C6.  For a request kind DATE or TIME, the six bytes the client builds
    pass the server's validator, and the request kind the server extracts
    from them is the one the client encoded. *)
Theorem request_round_trip :
  forall request_type : Z,
    request_type = Client.REQUEST_DATE \/ request_type = Client.REQUEST_TIME ->
    exists packet : bytes,
      Client.build_request_packet request_type = Ok packet
      /\ length packet = 6%nat
      /\ Server.valid_dt_request packet = ([], Ok true)
      /\ Server.extract_request_type packet = Ok request_type.
Proof.
  intros rt [-> | ->].
  - eexists. split; [vm_compute; reflexivity|].
    split; [reflexivity|]. split; vm_compute; reflexivity.
  - eexists. split; [vm_compute; reflexivity|].
    split; [reflexivity|]. split; vm_compute; reflexivity.
Qed.

Lemma request_round_trip_witness :
  (Client.REQUEST_TIME = Client.REQUEST_DATE
   \/ Client.REQUEST_TIME = Client.REQUEST_TIME)
  /\ exists packet : bytes,
       Client.build_request_packet Client.REQUEST_TIME = Ok packet
       /\ length packet = 6%nat
       /\ Server.valid_dt_request packet = ([], Ok true)
       /\ Server.extract_request_type packet = Ok Client.REQUEST_TIME.
Proof.
  split; [right; reflexivity|].
  apply (request_round_trip Client.REQUEST_TIME). right. reflexivity.
Defined.

(** ** The client's decoder *)

Lemma from_bytes_big_slice (pkt : bytes) (off : nat) :
  (off + 2 <= length pkt)%nat ->
  from_bytes_big (slice pkt off (off + 2)) = u16 pkt off.
Proof.
  revert pkt. induction off as [|off IH]; intros pkt H.
  - destruct pkt as [|b0 [|b1 pkt]]; try (simpl in H; lia).
    unfold slice, from_bytes_big, u16, u8.
    cbn [Nat.add Nat.sub skipn firstn fold_left nth]. lia.
  - destruct pkt as [|b pkt]; [simpl in H; lia|].
    change (u16 (b :: pkt) (S off)) with (u16 pkt off).
    rewrite <- (IH pkt) by (simpl in H; lia).
    unfold slice. replace (S off + 2 - S off)%nat with (off + 2 - off)%nat by lia.
    reflexivity.
Qed.

Lemma read_fields_spec (pkt : bytes) :
  (13 <= length pkt)%nat -> Client.read_fields pkt = Ok (fields_of pkt).
Proof.
  intros H. unfold Client.read_fields. getitems. cbn [rbind].
  pose proof (from_bytes_big_slice pkt 0 ltac:(lia)) as H0.
  pose proof (from_bytes_big_slice pkt 2 ltac:(lia)) as H2.
  pose proof (from_bytes_big_slice pkt 4 ltac:(lia)) as H4.
  pose proof (from_bytes_big_slice pkt 6 ltac:(lia)) as H6.
  cbn [Nat.add] in H0, H2, H4, H6. rewrite H0, H2, H4, H6.
  reflexivity.
Qed.

Lemma print_packet_stuff_spec (pkt : bytes) :
  (13 <= length pkt)%nat ->
  In (u16 pkt 4) [1; 2; 3] ->
  Client.print_packet_stuff pkt =
  match utf8_decode_opt (text_bytes pkt) with
  | Some text => accepted_run pkt text
  | None => ([], Raise (SystemExit (u "ERROR: Packet has invalid text")))
  end.
Proof.
  intros H Hl. unfold Client.print_packet_stuff.
  rewrite (read_fields_spec pkt H). cbn [lift bind].
  unfold utf8_decode, slice_from. fold (text_bytes pkt).
  destruct (utf8_decode_opt (text_bytes pkt)) as [text|]; [|reflexivity].
  cbn [try_except lift]. unfold accepted_run, report.
  cbn [fields_of Client.language_type Client.f_day Client.f_month
       Client.f_year Client.f_hour Client.f_minute].
  assert (Client.format_language (Client.language_select (u16 pkt 4))
          = language_name (u16 pkt 4)) as ->.
  { cbn [In] in Hl. destruct Hl as [<- | [<- | [<- | []]]]; reflexivity. }
  reflexivity.
Qed.

Ltac rejects :=
  left; split;
  [unfold response_rejected; cbn [In]; lia | eexists; reflexivity].

(** Every packet is either rejected, for one of the listed reasons and
    with nothing printed, or accepted and reported. *)
Lemma process_packet_cases (pkt : bytes) :
  (response_rejected pkt
   /\ exists msg, Client.process_packet pkt = ([], Raise (SystemExit msg)))
  \/ (response_valid pkt
      /\ exists text, utf8_decode_opt (text_bytes pkt) = Some text
                      /\ Client.process_packet pkt = accepted_run pkt text).
Proof.
  unfold Client.process_packet.
  destruct (Nat.ltb_spec (length pkt) 13) as [Hlen|Hlen].
  { left. split; [left; exact Hlen | eexists; reflexivity]. }
  rewrite (read_fields_spec pkt Hlen). unfold Client.MAGIC_NUM.
  cbn [ret lift bind app fields_of Client.magic_no Client.packet_type
       Client.language_type Client.f_year Client.f_month Client.f_day
       Client.f_hour Client.f_minute Client.f_length].
  rewrite !Z.gtb_ltb.
  destruct (Z.eqb_spec (u16 pkt 0) 14075) as [Hm|Hm]; cbn [negb];
    [|rejects].
  destruct (Z.eqb_spec (u16 pkt 2) 2) as [Ht|Ht]; cbn [negb]; [|rejects].
  assert (Hlang : (u16 pkt 4 =? 1) || (u16 pkt 4 =? 2) || (u16 pkt 4 =? 3)
                  = true \/ ~ In (u16 pkt 4) [1; 2; 3]).
  { cbn [In].
    destruct (Z.eqb_spec (u16 pkt 4) 1); [left; reflexivity|].
    destruct (Z.eqb_spec (u16 pkt 4) 2); [left; reflexivity|].
    destruct (Z.eqb_spec (u16 pkt 4) 3); [left; reflexivity|].
    right. lia. }
  destruct ((u16 pkt 4 =? 1) || (u16 pkt 4 =? 2) || (u16 pkt 4 =? 3)) eqn:El;
    cbn [negb].
  2:{ destruct Hlang as [Hlang|Hlang]; [discriminate|].
      left. split; [unfold response_rejected; tauto | eexists; reflexivity]. }
  assert (Hin : In (u16 pkt 4) [1; 2; 3]).
  { cbn [In]. apply orb_true_iff in El. destruct El as [El|El].
    - apply orb_true_iff in El. destruct El as [El|El];
        apply Z.eqb_eq in El; lia.
    - apply Z.eqb_eq in El; lia. }
  clear Hlang El.
  destruct (Z.ltb_spec 2100 (u16 pkt 6)); [rejects|].
  destruct (Z.ltb_spec (u8 pkt 8) 1); cbn [orb]; [rejects|].
  destruct (Z.ltb_spec 12 (u8 pkt 8)); [rejects|].
  destruct (Z.ltb_spec (u8 pkt 9) 1); cbn [orb]; [rejects|].
  destruct (Z.ltb_spec 31 (u8 pkt 9)); [rejects|].
  destruct (Z.ltb_spec (u8 pkt 10) 0); cbn [orb]; [rejects|].
  destruct (Z.ltb_spec 23 (u8 pkt 10)); [rejects|].
  destruct (Z.ltb_spec (u8 pkt 11) 0); cbn [orb]; [rejects|].
  destruct (Z.ltb_spec 59 (u8 pkt 11)); [rejects|].
  destruct (Z.eqb_spec (Z.of_nat (length pkt)) (13 + u8 pkt 12));
    cbn [negb]; [|rejects].
  rewrite (print_packet_stuff_spec pkt Hlen Hin).
  destruct (utf8_decode_opt (text_bytes pkt)) as [text|] eqn:Ed.
  - right. split.
    + unfold response_valid. repeat split; try assumption; lia.
    + exists text. split; [reflexivity|]. reflexivity.
  - left. split; [unfold response_rejected; tauto | eexists; reflexivity].
Qed.

Lemma valid_not_rejected (pkt : bytes) (text : pystr) :
  response_valid pkt -> utf8_decode_opt (text_bytes pkt) = Some text ->
  ~ response_rejected pkt.
Proof.
  unfold response_valid, response_rejected.
  intros (H1 & H2 & H3 & H4 & H5 & H6 & H7 & H8 & H9 & H10) Hd.
  intros [R|[R|[R|[R|[R|[R|[R|[R|[R|[R|R]]]]]]]]]];
    try contradiction; try lia; congruence.
Qed.

(** C5.  The client's decoder exits with an error, having printed nothing,
    exactly when the packet is shorter than 13 bytes, or has a wrong magic
    number, packet type or language code, a year above 2100, a month, day,
    hour or minute out of range, a length other than 13 + textLength, or
    text bytes that are not valid UTF-8. *)
Theorem response_decoder_rejects_exactly :
  forall pkt : bytes,
    (exists msg, Client.process_packet pkt = ([], Raise (SystemExit msg)))
    <-> response_rejected pkt.
Proof.
  intros pkt. split.
  - intros [msg Hmsg].
    destruct (process_packet_cases pkt) as [[Hr _] | [_ (text & _ & Hrun)]];
      [exact Hr|].
    rewrite Hrun in Hmsg. discriminate Hmsg.
  - intros Hr.
    destruct (process_packet_cases pkt) as [[_ Hm] | [Hv (text & Hd & _)]];
      [exact Hm|].
    exfalso. exact (valid_not_rejected pkt text Hv Hd Hr).
Qed.

(** C3.  When the response passes every validation check and its text is
    valid UTF-8, the client session ends normally, and what it has printed
    by then is the request kind (with the address the request went to),
    the language, the text, and the date and time fields. *)
Theorem client_completes_and_reports :
  forall (request_type : Z) (host : pystr) (port : Z) (pkt : bytes)
         (rhost : pystr) (rport : Z) (text : pystr),
    request_type = Client.REQUEST_DATE \/ request_type = Client.REQUEST_TIME ->
    response_valid pkt ->
    utf8_decode_opt (text_bytes pkt) = Some text ->
    exists request : bytes,
      Client.build_request_packet request_type = Ok request
      /\ Client.session request_type host port true true
           (Received pkt rhost rport)
         = (SendTo request host port
              :: Print (request_line request_type host port)
              :: CloseSockets :: map Print (report pkt text),
            Ok tt)
      /\ printed
           (Client.session request_type host port true true
              (Received pkt rhost rport))
         = request_line request_type host port :: report pkt text.
Proof.
  intros rt host port pkt rhost rport text Hrt Hv Hd.
  assert (Hrun : Client.process_packet pkt = accepted_run pkt text).
  { destruct (process_packet_cases pkt) as [[Hr _] | [_ (t & Hd' & Hrun)]].
    - exfalso. exact (valid_not_rejected pkt text Hv Hd Hr).
    - rewrite Hd in Hd'. injection Hd' as <-. exact Hrun. }
  unfold Client.session, Client.receive_and_process_response,
    Client.create_and_send_packet.
  destruct Hrt as [-> | ->].
  - eexists. split; [vm_compute; reflexivity|].
    cbn [ret bind try_finally app]. rewrite Hrun.
    split; [reflexivity|].
    unfold printed, accepted_run, report. reflexivity.
  - eexists. split; [vm_compute; reflexivity|].
    cbn [ret bind try_finally app]. rewrite Hrun.
    split; [reflexivity|].
    unfold printed, accepted_run, report. reflexivity.
Qed.

Lemma client_completes_and_reports_witness :
  (Client.REQUEST_DATE = Client.REQUEST_DATE
   \/ Client.REQUEST_DATE = Client.REQUEST_TIME)
  /\ response_valid Sample.response
  /\ utf8_decode_opt (text_bytes Sample.response) = Some Sample.text
  /\ exists request : bytes,
       Client.build_request_packet Client.REQUEST_DATE = Ok request
       /\ Client.session Client.REQUEST_DATE Sample.host 5000 true true
            (Received Sample.response Sample.host 5000)
          = (SendTo request Sample.host 5000
               :: Print (request_line Client.REQUEST_DATE Sample.host 5000)
               :: CloseSockets
               :: map Print (report Sample.response Sample.text),
             Ok tt)
       /\ printed
            (Client.session Client.REQUEST_DATE Sample.host 5000 true true
               (Received Sample.response Sample.host 5000))
          = request_line Client.REQUEST_DATE Sample.host 5000
              :: report Sample.response Sample.text.
Proof.
  assert (Hv : response_valid Sample.response)
    by (unfold response_valid; cbn [In]; vm_compute;
        repeat split; solve [discriminate | auto | lia]).
  assert (Hd : utf8_decode_opt (text_bytes Sample.response)
               = Some Sample.text) by (vm_compute; reflexivity).
  split; [left; reflexivity|]. split; [exact Hv|]. split; [exact Hd|].
  apply (client_completes_and_reports Client.REQUEST_DATE Sample.host 5000
           Sample.response Sample.host 5000 Sample.text).
  - left. reflexivity.
  - exact Hv.
  - exact Hd.
Defined.

(** C10.  In a packet of at least 13 bytes the hour field is one byte, so
    it lies in [0, 255]: the test [hour < 0] is never true, and the hour
    check comes down to [hour > 23]. *)
Theorem hour_lower_bound_unreachable :
  forall pkt : bytes,
    (13 <= length pkt)%nat ->
    exists f : Client.fields,
      Client.read_fields pkt = Ok f
      /\ 0 <= Client.f_hour f <= 255
      /\ (Client.f_hour f <? 0) = false
      /\ (Client.f_hour f <? 0) || (Client.f_hour f >? 23)
         = (Client.f_hour f >? 23).
Proof.
  intros pkt H. exists (fields_of pkt).
  split; [apply read_fields_spec; exact H|].
  cbn [fields_of Client.f_hour]. unfold u8.
  pose proof (byte_val_range (nth 10 pkt x00)) as Hb.
  assert (E : (byte_val (nth 10 pkt x00) <? 0) = false) by (apply Z.ltb_ge; lia).
  rewrite E. repeat split; lia.
Qed.

Lemma hour_lower_bound_unreachable_witness :
  (13 <= length Sample.response)%nat
  /\ exists f : Client.fields,
       Client.read_fields Sample.response = Ok f
       /\ 0 <= Client.f_hour f <= 255
       /\ (Client.f_hour f <? 0) = false
       /\ (Client.f_hour f <? 0) || (Client.f_hour f >? 23)
          = (Client.f_hour f >? 23).
Proof.
  assert (H : (13 <= length Sample.response)%nat)
    by (apply Nat.leb_le; vm_compute; reflexivity).
  split; [exact H|].
  apply (hour_lower_bound_unreachable Sample.response). exact H.
Defined.

(** ** UTF-8: decoding undoes encoding *)

Ltac decide_cmp :=
  repeat
    (match goal with
     | |- context [?a =? ?b] =>
       destruct (Z.eqb_spec a b); [try (exfalso; lia) | try (exfalso; lia)]
     | |- context [?a <? ?b] =>
       destruct (Z.ltb_spec a b); [try (exfalso; lia) | try (exfalso; lia)]
     | |- context [?a <=? ?b] =>
       destruct (Z.leb_spec a b); [try (exfalso; lia) | try (exfalso; lia)]
     end;
     cbn [andb orb negb]).

Ltac decode_head :=
  cbn [app];
  match goal with
  | |- utf8_decode_opt (_ :: ?t) = _ =>
    let tl := fresh "tl" in
    remember t as tl eqn:Etl;
    cbn [utf8_decode_opt];
    rewrite !byte_val_of_Z by lia;
    decide_cmp; subst tl; cbv iota beta zeta
  end.

(** Decoding the encoding of one scalar value yields it back and goes on
    with the rest. *)
Lemma decode_enc_char (c : Z) (rest : bytes) :
  is_scalar c = true ->
  utf8_decode_opt (enc_char c ++ rest)
  = option_map (cons c) (utf8_decode_opt rest).
Proof.
  unfold is_scalar. intros Hs.
  apply andb_true_iff in Hs. destruct Hs as [Hr Hsur].
  apply andb_true_iff in Hr. destruct Hr as [H0 Hmax].
  apply Z.leb_le in H0, Hmax.
  assert (Hns : c < 0xD800 \/ 0xDFFF < c).
  { apply negb_true_iff, andb_false_iff in Hsur.
    destruct Hsur as [E|E]; apply Z.leb_gt in E; lia. }
  clear Hsur. unfold enc_char.
  destruct (Z.ltb_spec c 128) as [L1|L1].
  { cbn [app utf8_decode_opt]. rewrite byte_val_of_Z by lia.
    destruct (Z.ltb_spec c 128); [reflexivity | lia]. }
  pose proof (Z.div_mod c 64 ltac:(lia)) as E0.
  pose proof (Z.mod_pos_bound c 64 ltac:(lia)) as B0.
  destruct (Z.ltb_spec c 2048) as [L2|L2].
  { set (q := c / 64) in *. set (r := c mod 64) in *.
    decode_head. unfold is_cont.
    rewrite !byte_val_of_Z by lia.
    decide_cmp. f_equal. f_equal. lia. }
  pose proof (Z.div_mod (c / 64) 64 ltac:(lia)) as E1.
  pose proof (Z.mod_pos_bound (c / 64) 64 ltac:(lia)) as B1.
  destruct (Z.ltb_spec c 65536) as [L3|L3].
  { replace (c / 4096) with (c / 64 / 64)
      by (rewrite Z.div_div by lia; reflexivity).
    set (q := c / 64) in *. set (r := c mod 64) in *.
    set (q1 := q / 64) in *. set (r1 := q mod 64) in *.
    decode_head. unfold is_cont, second_ok3.
    rewrite !byte_val_of_Z by lia.
    decide_cmp; f_equal; f_equal; lia. }
  pose proof (Z.div_mod (c / 64 / 64) 64 ltac:(lia)) as E2.
  pose proof (Z.mod_pos_bound (c / 64 / 64) 64 ltac:(lia)) as B2.
  replace (c / 4096) with (c / 64 / 64)
    by (rewrite Z.div_div by lia; reflexivity).
  replace (c / 262144) with (c / 64 / 64 / 64)
    by (rewrite !Z.div_div by lia; reflexivity).
  set (q := c / 64) in *. set (r := c mod 64) in *.
  set (q1 := q / 64) in *. set (r1 := q mod 64) in *.
  set (q2 := q1 / 64) in *. set (r2 := q1 mod 64) in *.
  decode_head. unfold is_cont, second_ok4.
  rewrite !byte_val_of_Z by lia.
  decide_cmp; f_equal; f_equal; lia.
Qed.

Lemma utf8_round_trip (s : pystr) :
  forallb is_scalar s = true ->
  utf8_decode_opt (flat_map enc_char s) = Some s.
Proof.
  induction s as [|c s IH]; intros H; [reflexivity|].
  cbn [forallb] in H. apply andb_true_iff in H. destruct H as [Hc Hs].
  cbn [flat_map]. rewrite (decode_enc_char c _ Hc), (IH Hs). reflexivity.
Qed.

(** ** The rendered text *)

(** A property checked on every integer below [n] holds on that range. *)
Lemma forall_range (P : Z -> bool) (n : Z) :
  forallb P (map Z.of_nat (seq 0 (Z.to_nat n))) = true ->
  forall z, 0 <= z < n -> P z = true.
Proof.
  intros H z Hz. rewrite forallb_forall in H. apply H.
  rewrite <- (Z2Nat.id z) by lia. apply in_map, in_seq. lia.
Qed.

Lemma enc_char_length (c : Z) : (length (enc_char c) <= 4)%nat.
Proof.
  unfold enc_char.
  destruct (c <? 128); [simpl; lia|].
  destruct (c <? 2048); [simpl; lia|].
  destruct (c <? 65536); simpl; lia.
Qed.

Lemma encoded_length_bound (s : pystr) :
  (length (flat_map enc_char s) <= 4 * length s)%nat.
Proof.
  induction s as [|c s IH]; [simpl; lia|].
  cbn [flat_map]. rewrite length_app. pose proof (enc_char_length c).
  cbn [length]. lia.
Qed.

Lemma uint_digits_scalar (d : Decimal.uint) :
  forallb is_scalar (uint_digits d) = true.
Proof. induction d; cbn [uint_digits forallb]; try rewrite IHd; reflexivity. Qed.

Lemma str_of_Z_scalar (z : Z) : forallb is_scalar (str_of_Z z) = true.
Proof.
  unfold str_of_Z. destruct (z <? 0); cbn [forallb];
    rewrite uint_digits_scalar; reflexivity.
Qed.

Lemma format_02_scalar (z : Z) : forallb is_scalar (format_02 z) = true.
Proof.
  unfold format_02. destruct (length (str_of_Z z) <? 2)%nat; cbn [forallb];
    rewrite str_of_Z_scalar; reflexivity.
Qed.

Lemma str_of_Z_short (z : Z) :
  0 <= z <= 9999 -> (length (str_of_Z z) <= 4)%nat.
Proof.
  intros Hz. apply Nat.leb_le.
  apply (forall_range (fun z => (length (str_of_Z z) <=? 4)%nat) 10000);
    [vm_compute; reflexivity | lia].
Qed.

Lemma str_of_Z_two_digits (z : Z) :
  0 <= z <= 99 -> (length (str_of_Z z) <= 2)%nat.
Proof.
  intros Hz. apply Nat.leb_le.
  apply (forall_range (fun z => (length (str_of_Z z) <=? 2)%nat) 100);
    [vm_compute; reflexivity | lia].
Qed.

Lemma format_02_short (z : Z) :
  0 <= z <= 99 -> length (format_02 z) = 2%nat.
Proof.
  intros Hz. apply Nat.eqb_eq.
  apply (forall_range (fun z => (length (format_02 z) =? 2)%nat) 100);
    [vm_compute; reflexivity | lia].
Qed.

Lemma month_name_exists (language : pystr) (m : Z) :
  supported language -> 1 <= m <= 12 ->
  exists names name,
    Server.dict_getitem Server.MONTH_NAMES language = Ok names
    /\ getitem names (m - 1) = Ok name
    /\ (length name <= 16)%nat
    /\ forallb is_scalar name = true.
Proof.
  intros Hl Hm.
  assert (H : month_name_ok language m = true).
  { destruct Hl as [<- | [<- | [<- | []]]];
      apply (forall_range (month_name_ok _) 13);
      solve [vm_compute; reflexivity | lia]. }
  unfold month_name_ok in H.
  destruct (Server.dict_getitem Server.MONTH_NAMES language) as [names|];
    [|discriminate].
  destruct (getitem names (m - 1)) as [name|] eqn:Hname; [|discriminate].
  apply andb_true_iff in H. destruct H as [H1 H2]. apply Nat.leb_le in H1.
  exists names, name. repeat split; assumption.
Qed.

Lemma pystr_eqb_eq (a b : pystr) : pystr_eqb a b = true <-> a = b.
Proof.
  unfold pystr_eqb. destruct (list_eq_dec Z.eq_dec a b); split;
    congruence.
Qed.

Lemma request_type_cases (rt : Z) :
  rt = Server.REQUEST_DATE \/ rt = Server.REQUEST_TIME ->
  (rt =? Server.REQUEST_DATE) = true
  \/ ((rt =? Server.REQUEST_DATE) = false
      /\ (rt =? Server.REQUEST_TIME) = true).
Proof. intros [-> | ->]; [left | right]; split; reflexivity. Qed.

Ltac lit_lengths :=
  repeat match goal with
  | |- context [length (u ?s)] =>
    let n := eval vm_compute in (length (u s)) in
    change (length (u s)) with n
  end.

Ltac lit_scalars :=
  repeat match goal with
  | |- context [forallb is_scalar (u ?s)] =>
    change (forallb is_scalar (u s)) with true
  end.

(** The rendered text exists, is short and consists of scalar values. *)
Lemma rendered_text (now : datetime) (language : pystr) (rt : Z) :
  valid_datetime now -> supported language ->
  rt = Server.REQUEST_DATE \/ rt = Server.REQUEST_TIME ->
  exists text,
    Server.tell_it_what_it_is now language rt = Ok (Some text)
    /\ (length text <= 48)%nat
    /\ forallb is_scalar text = true.
Proof.
  intros (Hy & Hm & Hd & Hh & Hmin) Hl Hrt.
  destruct (month_name_exists language (month now) Hl Hm)
    as (names & name & Hnames & Hname & Hlen & Hsc).
  pose proof (str_of_Z_two_digits (day now) ltac:(lia)) as Ld.
  pose proof (str_of_Z_short (year now) ltac:(lia)) as Ly.
  pose proof (format_02_short (hour now) ltac:(lia)) as Lh.
  pose proof (format_02_short (minute now) ltac:(lia)) as Lm.
  unfold Server.tell_it_what_it_is. rewrite Hnames. cbn [rbind].
  rewrite Hname. cbn [rbind].
  assert (Ee : pystr_eqb Server.Maori Server.English = false) by reflexivity.
  assert (Eg : pystr_eqb Server.German Server.English = false) by reflexivity.
  assert (Em : pystr_eqb Server.German Server.Maori = false) by reflexivity.
  assert (Er : forall a, pystr_eqb a a = true)
    by (intros a; apply pystr_eqb_eq; reflexivity).
  destruct (request_type_cases rt Hrt) as [E1 | [E1 E2]];
    rewrite E1; try rewrite E2;
    destruct Hl as [<- | [<- | [<- | []]]];
    rewrite ?Er, ?Ee, ?Eg, ?Em;
    (eexists; split; [reflexivity|]; split;
     [ rewrite !length_app; lit_lengths; lia
     | rewrite !forallb_app, ?str_of_Z_scalar, ?format_02_scalar, ?Hsc;
       lit_scalars; reflexivity ]).
Qed.

(** ** The response builder *)

Lemma byte_val_of_Z_mod (z : Z) : byte_val (byte_of_Z z) = z mod 256.
Proof.
  unfold byte_val, byte_of_Z.
  pose proof (Z.mod_pos_bound z 256 ltac:(lia)) as B.
  destruct (Byte.of_N (Z.to_N (z mod 256))) as [b|] eqn:E.
  - apply Byte.to_of_N in E. rewrite E. lia.
  - apply Byte.of_N_None_iff in E. lia.
Qed.

Lemma to_bytes_1 (v : Z) : 0 <= v <= 255 -> to_bytes 1 v = Ok [byte_of_Z v].
Proof.
  intros H. unfold to_bytes. change (256 ^ Z.of_nat 1) with 256.
  destruct (Z.ltb_spec v 0); [lia|]. destruct (Z.leb_spec 256 v); [lia|].
  cbn [orb be_bytes]. change (256 ^ Z.of_nat 0) with 1. rewrite Z.div_1_r.
  reflexivity.
Qed.

Lemma to_bytes_2 (v : Z) :
  0 <= v <= 65535 -> to_bytes 2 v = Ok [byte_of_Z (v / 256); byte_of_Z v].
Proof.
  intros H. unfold to_bytes. change (256 ^ Z.of_nat 2) with 65536.
  destruct (Z.ltb_spec v 0); [lia|]. destruct (Z.leb_spec 65536 v); [lia|].
  cbn [orb be_bytes]. change (256 ^ Z.of_nat 0) with 1.
  change (256 ^ Z.of_nat 1) with 256. rewrite Z.div_1_r. reflexivity.
Qed.

Lemma language_code_range (language : pystr) :
  1 <= language_code language <= 3.
Proof.
  unfold language_code.
  destruct (pystr_eqb language Server.English); [lia|].
  destruct (pystr_eqb language Server.Maori); lia.
Qed.

(** What [create_response] returns: the header followed by the encoded
    text. *)
Lemma create_response_spec (now : datetime) (language : pystr) (rt : Z) :
  valid_datetime now -> supported language ->
  rt = Server.REQUEST_DATE \/ rt = Server.REQUEST_TIME ->
  exists text,
    Server.tell_it_what_it_is now language rt = Ok (Some text)
    /\ forallb is_scalar text = true
    /\ (length (flat_map enc_char text) <= 192)%nat
    /\ utf8_encode text = Ok (flat_map enc_char text)
    /\ Server.create_response now language rt
       = Ok (built_response now language (flat_map enc_char text)).
Proof.
  intros Hv Hl Hrt.
  destruct (rendered_text now language rt Hv Hl Hrt) as (text & Ht & Hlen & Hs).
  destruct Hv as (Hy & Hm & Hd & Hh & Hmin).
  pose proof (encoded_length_bound text) as Hb.
  pose proof (language_code_range language) as Hc.
  assert (He : utf8_encode text = Ok (flat_map enc_char text))
    by (unfold utf8_encode; rewrite Hs; reflexivity).
  exists text. repeat (split; [first [assumption | lia]|]).
  unfold Server.create_response. rewrite Ht. cbn [rbind Server.encode_text].
  rewrite He. cbn [rbind]. fold (language_code language).
  unfold Server.MAGIC_NUM.
  rewrite !to_bytes_2 by lia. cbn [rbind].
  rewrite !to_bytes_1 by lia. cbn [rbind].
  reflexivity.
Qed.

Lemma u16_big_endian (v : Z) :
  0 <= v <= 65535 ->
  256 * byte_val (byte_of_Z (v / 256)) + byte_val (byte_of_Z v) = v.
Proof.
  intros H. rewrite !byte_val_of_Z_mod.
  pose proof (Z.div_mod v 256 ltac:(lia)) as E.
  pose proof (Z.mod_pos_bound v 256 ltac:(lia)) as B.
  assert (0 <= v / 256 < 256)
    by (split; [apply Z.div_pos; lia | apply Z.div_lt_upper_bound; lia]).
  rewrite (Z.mod_small (v / 256)) by lia. lia.
Qed.

Lemma accepted_packet (pkt : bytes) (text : pystr) :
  response_valid pkt -> utf8_decode_opt (text_bytes pkt) = Some text ->
  Client.process_packet pkt = accepted_run pkt text.
Proof.
  intros Hv Hd.
  destruct (process_packet_cases pkt) as [[Hr _] | [_ (t & Hd' & Hrun)]].
  - exfalso. exact (valid_not_rejected pkt text Hv Hd Hr).
  - rewrite Hd in Hd'. injection Hd' as <-. exact Hrun.
Qed.

Lemma built_length now language enc :
  length (built_response now language enc) = (13 + length enc)%nat.
Proof. unfold built_response. rewrite length_app. reflexivity. Qed.

Lemma built_text now language enc :
  text_bytes (built_response now language enc) = enc.
Proof. reflexivity. Qed.

Ltac built_field :=
  unfold u16, u8; cbn [built_response response_header app nth];
  first [apply u16_big_endian | apply byte_val_of_Z].

Lemma built_magic now language enc :
  u16 (built_response now language enc) 0 = 0x36FB.
Proof. built_field. lia. Qed.

Lemma built_type now language enc :
  u16 (built_response now language enc) 2 = 0x0002.
Proof. built_field. lia. Qed.

Lemma built_language now language enc :
  u16 (built_response now language enc) 4 = language_code language.
Proof. built_field. pose proof (language_code_range language). lia. Qed.

Lemma built_year now language enc :
  valid_datetime now -> u16 (built_response now language enc) 6 = year now.
Proof. intros (H & _). built_field. lia. Qed.

Lemma built_month now language enc :
  valid_datetime now -> u8 (built_response now language enc) 8 = month now.
Proof. intros (_ & H & _). built_field. lia. Qed.

Lemma built_day now language enc :
  valid_datetime now -> u8 (built_response now language enc) 9 = day now.
Proof. intros (_ & _ & H & _). built_field. lia. Qed.

Lemma built_hour now language enc :
  valid_datetime now -> u8 (built_response now language enc) 10 = hour now.
Proof. intros (_ & _ & _ & H & _). built_field. lia. Qed.

Lemma built_minute now language enc :
  valid_datetime now -> u8 (built_response now language enc) 11 = minute now.
Proof. intros (_ & _ & _ & _ & H). built_field. lia. Qed.

Lemma built_text_length now language enc :
  (length enc <= 255)%nat ->
  u8 (built_response now language enc) 12 = Z.of_nat (length enc).
Proof. intros H. built_field. lia. Qed.

Lemma built_valid now language enc :
  valid_datetime now -> (length enc <= 255)%nat -> year now <= 2100 ->
  response_valid (built_response now language enc).
Proof.
  intros Hnow Henc Hy. unfold response_valid.
  rewrite built_magic, built_type, built_language, built_length,
    (built_year _ _ _ Hnow), (built_month _ _ _ Hnow),
    (built_day _ _ _ Hnow), (built_hour _ _ _ Hnow),
    (built_minute _ _ _ Hnow), (built_text_length _ _ _ Henc).
  destruct Hnow as (H1 & H2 & H3 & H4 & H5).
  pose proof (language_code_range language). cbn [In].
  repeat split; lia.
Qed.

Lemma supported_language_name (language : pystr) :
  supported language -> language_name (language_code language) = language.
Proof. intros [<- | [<- | [<- | []]]]; reflexivity. Qed.

(** C7.  For each of the three languages, each of the two request kinds
    and every timestamp, the server builds a response whose textLength
    byte is the number of bytes of the UTF-8 encoding of the rendered text,
    whose bytes from offset 13 are that encoding, and whose total length is
    13 + textLength. *)
Theorem response_text_length_field :
  forall (now : datetime) (language : pystr) (request_type : Z),
    valid_datetime now ->
    supported language ->
    request_type = Server.REQUEST_DATE \/ request_type = Server.REQUEST_TIME ->
    exists (text : pystr) (encoded pkt : bytes),
      Server.tell_it_what_it_is now language request_type = Ok (Some text)
      /\ utf8_encode text = Ok encoded
      /\ Server.create_response now language request_type = Ok pkt
      /\ u8 pkt 12 = Z.of_nat (length encoded)
      /\ text_bytes pkt = encoded
      /\ length pkt = (13 + length encoded)%nat.
Proof.
  intros now language rt Hv Hl Hrt.
  destruct (create_response_spec now language rt Hv Hl Hrt)
    as (text & Ht & Hs & Hlen & He & Hc).
  exists text, (flat_map enc_char text),
    (built_response now language (flat_map enc_char text)).
  repeat (split; [assumption|]).
  split; [apply built_text_length; lia|].
  split; [apply built_text | apply built_length].
Qed.

Lemma response_text_length_field_witness :
  valid_datetime Sample.now
  /\ supported Server.Maori
  /\ (Server.REQUEST_DATE = Server.REQUEST_DATE
      \/ Server.REQUEST_DATE = Server.REQUEST_TIME)
  /\ exists (text : pystr) (encoded pkt : bytes),
       Server.tell_it_what_it_is Sample.now Server.Maori Server.REQUEST_DATE
       = Ok (Some text)
       /\ utf8_encode text = Ok encoded
       /\ Server.create_response Sample.now Server.Maori Server.REQUEST_DATE
          = Ok pkt
       /\ u8 pkt 12 = Z.of_nat (length encoded)
       /\ text_bytes pkt = encoded
       /\ length pkt = (13 + length encoded)%nat.
Proof.
  assert (Hv : valid_datetime Sample.now)
    by (unfold valid_datetime; cbn; lia).
  assert (Hl : supported Server.Maori) by (right; left; reflexivity).
  split; [exact Hv|]. split; [exact Hl|]. split; [left; reflexivity|].
  apply (response_text_length_field Sample.now Server.Maori
           Server.REQUEST_DATE).
  - exact Hv.
  - exact Hl.
  - left. reflexivity.
Defined.

(** C8.  For a timestamp with year at most 2100, each of the three
    languages and each of the two request kinds, the response the server
    builds is rejected by none of the client's checks: the client prints
    its report and ends normally, and the language code, year, month, day,
    hour and minute it reads are those of the language and the timestamp
    the server used. *)
Theorem response_accepted_by_client :
  forall (now : datetime) (language : pystr) (request_type : Z),
    valid_datetime now ->
    year now <= 2100 ->
    supported language ->
    request_type = Server.REQUEST_DATE \/ request_type = Server.REQUEST_TIME ->
    exists (pkt : bytes) (text : pystr) (f : Client.fields),
      Server.create_response now language request_type = Ok pkt
      /\ Server.tell_it_what_it_is now language request_type = Ok (Some text)
      /\ ~ response_rejected pkt
      /\ Client.process_packet pkt = (map Print (report pkt text), Ok tt)
      /\ Client.read_fields pkt = Ok f
      /\ Client.language_type f = language_code language
      /\ language_name (Client.language_type f) = language
      /\ Client.f_year f = year now
      /\ Client.f_month f = month now
      /\ Client.f_day f = day now
      /\ Client.f_hour f = hour now
      /\ Client.f_minute f = minute now.
Proof.
  intros now language rt Hv Hy Hl Hrt.
  destruct (create_response_spec now language rt Hv Hl Hrt)
    as (text & Ht & Hs & Hlen & He & Hc).
  set (enc := flat_map enc_char text) in *.
  pose proof (built_valid now language enc Hv ltac:(lia) Hy) as Hvalid.
  assert (Hd : utf8_decode_opt (text_bytes (built_response now language enc))
               = Some text).
  { rewrite built_text. apply utf8_round_trip. exact Hs. }
  exists (built_response now language enc), text,
    (fields_of (built_response now language enc)).
  split; [exact Hc|]. split; [exact Ht|].
  split; [exact (valid_not_rejected _ _ Hvalid Hd)|].
  split; [exact (accepted_packet _ _ Hvalid Hd)|].
  split.
  { apply read_fields_spec. rewrite built_length. lia. }
  cbn [fields_of Client.language_type Client.f_year Client.f_month
       Client.f_day Client.f_hour Client.f_minute].
  rewrite built_language.
  split; [reflexivity|].
  split; [apply supported_language_name; exact Hl|].
  split; [apply built_year; exact Hv|].
  split; [apply built_month; exact Hv|].
  split; [apply built_day; exact Hv|].
  split; [apply built_hour; exact Hv | apply built_minute; exact Hv].
Qed.

Lemma response_accepted_by_client_witness :
  valid_datetime Sample.now
  /\ year Sample.now <= 2100
  /\ supported Server.German
  /\ (Server.REQUEST_TIME = Server.REQUEST_DATE
      \/ Server.REQUEST_TIME = Server.REQUEST_TIME)
  /\ exists (pkt : bytes) (text : pystr) (f : Client.fields),
       Server.create_response Sample.now Server.German Server.REQUEST_TIME
       = Ok pkt
       /\ Server.tell_it_what_it_is Sample.now Server.German
            Server.REQUEST_TIME
          = Ok (Some text)
       /\ ~ response_rejected pkt
       /\ Client.process_packet pkt = (map Print (report pkt text), Ok tt)
       /\ Client.read_fields pkt = Ok f
       /\ Client.language_type f = language_code Server.German
       /\ language_name (Client.language_type f) = Server.German
       /\ Client.f_year f = year Sample.now
       /\ Client.f_month f = month Sample.now
       /\ Client.f_day f = day Sample.now
       /\ Client.f_hour f = hour Sample.now
       /\ Client.f_minute f = minute Sample.now.
Proof.
  assert (Hv : valid_datetime Sample.now)
    by (unfold valid_datetime; cbn; lia).
  assert (Hy : year Sample.now <= 2100) by (cbn; lia).
  assert (Hl : supported Server.German) by (right; right; left; reflexivity).
  split; [exact Hv|]. split; [exact Hy|]. split; [exact Hl|].
  split; [right; reflexivity|].
  apply (response_accepted_by_client Sample.now Server.German
           Server.REQUEST_TIME).
  - exact Hv.
  - exact Hy.
  - exact Hl.
  - right. reflexivity.
Defined.

(** C9.  For a datagram the validator accepted and a language that is
    English, Māori or German, the localized-text function returns a
    string ([Some text], not [None]) for the request kind read off the
    datagram, so encoding the text does not fail and the response is
    built. *)
Theorem localized_text_never_missing :
  forall (data : bytes) (language : pystr) (now : datetime),
    Server.valid_dt_request data = ([], Ok true) ->
    supported language ->
    valid_datetime now ->
    exists (request_type : Z) (text : pystr) (response : bytes),
      Server.extract_request_type data = Ok request_type
      /\ Server.tell_it_what_it_is now language request_type = Ok (Some text)
      /\ Server.encode_text (Some text) = Ok (text_bytes response)
      /\ Server.create_response now language request_type = Ok response.
Proof.
  intros data language now Hvalid Hl Hv.
  rewrite valid_dt_request_spec in Hvalid.
  destruct (first_failed_check data) as [reason|] eqn:Hc; [discriminate|].
  apply first_failed_check_none in Hc. destruct Hc as (Hlen & _ & _ & Hk).
  destruct (create_response_spec now language (u16 data 4) Hv Hl Hk)
    as (text & Ht & Hs & Hb & He & Hr).
  exists (u16 data 4), text,
    (built_response now language (flat_map enc_char text)).
  split; [apply extract_request_type_spec; lia|].
  split; [exact Ht|]. split; [|exact Hr].
  rewrite built_text. exact He.
Qed.

Lemma localized_text_never_missing_witness :
  Server.valid_dt_request Sample.request = ([], Ok true)
  /\ supported (Server.get_language Server.masock)
  /\ valid_datetime Sample.now
  /\ exists (request_type : Z) (text : pystr) (response : bytes),
       Server.extract_request_type Sample.request = Ok request_type
       /\ Server.tell_it_what_it_is Sample.now
            (Server.get_language Server.masock) request_type
          = Ok (Some text)
       /\ Server.encode_text (Some text) = Ok (text_bytes response)
       /\ Server.create_response Sample.now
            (Server.get_language Server.masock) request_type
          = Ok response.
Proof.
  assert (Hr : Server.valid_dt_request Sample.request = ([], Ok true))
    by (vm_compute; reflexivity).
  assert (Hl : supported (Server.get_language Server.masock))
    by (right; left; reflexivity).
  assert (Hv : valid_datetime Sample.now)
    by (unfold valid_datetime; cbn; lia).
  split; [exact Hr|]. split; [exact Hl|]. split; [exact Hv|].
  apply (localized_text_never_missing Sample.request
           (Server.get_language Server.masock) Sample.now).
  - exact Hr.
  - exact Hl.
  - exact Hv.
Defined.

(** ** The dispatch loop *)

Lemma send_response_oversized response host port send_ok :
  (255 <= length response)%nat ->
  Server.send_response response host port send_ok
  = ([], Raise (SystemExit (u "ERROR: Text too long, dropping packet"))).
Proof.
  intros H. unfold Server.send_response.
  destruct (Z.leb_spec 255 (Z.of_nat (length response))); [reflexivity | lia].
Qed.

Lemma send_response_fits response host port send_ok :
  (length response < 255)%nat ->
  Server.send_response response host port send_ok
  = if send_ok
    then ([SendTo response host port; Print (u "Response sent")], Ok tt)
    else ([Print (u "ERROR: Sending failed, dropping packet")], Ok tt).
Proof.
  intros H. unfold Server.send_response.
  destruct (Z.leb_spec 255 (Z.of_nat (length response))); [lia|].
  destruct send_ok; reflexivity.
Qed.

(** What the length test does with a response of 255 bytes or more, were
    there ever one: it calls [sys.exit], and the [SystemExit] is caught
    neither by the handlers of the loop body nor by [except Exception], so
    whatever the loop had still to do ([rest]) is not done.  (No response
    the server builds is that long, as shown further down.) *)
Theorem oversized_response_is_fatal :
  forall (response : bytes) (host : pystr) (port : Z) (send_ok : bool)
         (rest : prog unit),
    (255 <= length response)%nat ->
    let attempt := Server.send_response response host port send_ok in
    let exit :=
      Raise (SystemExit (u "ERROR: Text too long, dropping packet")) in
    attempt = ([], exit)
    /\ try_except attempt Server.receive_errors = ([], exit)
    /\ try_finally (try_except (attempt ;;; rest) Server.any_exception)
         [CloseSockets]
       = ([CloseSockets], exit).
Proof.
  intros response host port send_ok rest H.
  cbv zeta. rewrite (send_response_oversized _ _ _ _ H).
  repeat split; reflexivity.
Qed.

Lemma oversized_response_is_fatal_witness :
  (255 <= length Sample.oversized)%nat
  /\ Server.send_response Sample.oversized Sample.host 5000 true
     = ([], Raise (SystemExit (u "ERROR: Text too long, dropping packet")))
  /\ try_except
       (Server.send_response Sample.oversized Sample.host 5000 true)
       Server.receive_errors
     = ([], Raise (SystemExit (u "ERROR: Text too long, dropping packet")))
  /\ try_finally
       (try_except
          (Server.send_response Sample.oversized Sample.host 5000 true ;;;
           Server.while_true [])
          Server.any_exception)
       [CloseSockets]
     = ([CloseSockets],
        Raise (SystemExit (u "ERROR: Text too long, dropping packet"))).
Proof.
  assert (H : (255 <= length Sample.oversized)%nat)
    by (apply Nat.leb_le; vm_compute; reflexivity).
  split; [exact H|].
  apply (oversized_response_is_fatal Sample.oversized Sample.host 5000 true
           (Server.while_true [])).
  exact H.
Defined.

(** With the tables as they are, no response is ever that long: whatever
    arrives, the loop body returns normally. *)
Lemma handle_ready_continues (r : Server.ready) :
  valid_datetime (Server.r_now r) -> result (Server.handle_ready r) = Ok tt.
Proof.
  intros Hv. destruct r as [s recv now send_ok]. cbn [Server.r_now] in Hv.
  unfold Server.handle_ready.
  cbn [Server.r_recv Server.r_sock Server.r_now Server.r_send_ok].
  destruct recv as [| |data host port]; try reflexivity.
  rewrite valid_dt_request_spec.
  destruct (first_failed_check data) as [reason|] eqn:Hc; [reflexivity|].
  apply first_failed_check_none in Hc. destruct Hc as (Hlen & _ & _ & Hk).
  assert (Hl : supported (Server.get_language s))
    by (destruct s; cbn; tauto).
  destruct (create_response_spec now _ (u16 data 4) Hv Hl Hk)
    as (text & Ht & Hs & Hb & He & Hr).
  cbn [bind ret negb app].
  rewrite (extract_request_type_spec data) by lia.
  cbn [lift bind print app]. rewrite Hr.
  rewrite send_response_fits by (rewrite built_length; lia).
  destruct send_ok; reflexivity.
Qed.

Lemma bind_result {A B} (p : prog A) (k : A -> prog B) (a : A) :
  result p = Ok a -> result (bind p k) = result (k a).
Proof.
  destruct p as [tr r]. cbn [result snd]. intros ->. cbn [bind].
  destruct (k a). reflexivity.
Qed.

Lemma for_readable_continues (readable : list Server.ready) :
  Forall (fun r => valid_datetime (Server.r_now r)) readable ->
  result (Server.for_readable readable) = Ok tt.
Proof.
  induction 1 as [|r rest Hr _ IH]; [reflexivity|].
  cbn [Server.for_readable].
  rewrite (bind_result _ _ tt (handle_ready_continues r Hr)). exact IH.
Qed.

Lemma while_true_continues (selects : list (list Server.ready)) :
  Forall (Forall (fun r => valid_datetime (Server.r_now r))) selects ->
  result (Server.while_true selects) = Ok tt.
Proof.
  induction 1 as [|readable rest Hr _ IH]; [reflexivity|].
  cbn [Server.while_true].
  rewrite (bind_result _ _ tt) by reflexivity.
  rewrite (bind_result _ _ tt (for_readable_continues readable Hr)).
  exact IH.
Qed.

Lemma waiting_for_request_keeps_serving (selects : list (list Server.ready)) :
  Forall (Forall (fun r => valid_datetime (Server.r_now r))) selects ->
  result (Server.waiting_for_request selects) = Ok tt.
Proof.
  intros H. apply while_true_continues in H.
  unfold Server.waiting_for_request.
  destruct (Server.while_true selects) as [tr r]. cbn [result snd] in H.
  subst r. reflexivity.
Qed.

(** A short datagram is dropped with its message and the request that
    follows it is answered. *)
Example short_datagram_then_request :
  sent (Server.waiting_for_request Sample.selects) = [Sample.response]
  /\ printed (Server.waiting_for_request Sample.selects)
     = [ u "Waiting for requests...";
         u "ERROR: Packet length incorrect for a DT_Request, dropping packet";
         u "Waiting for requests...";
         u "Māori received date request from 127.0.0.1";
         u "Response sent";
         u "Waiting for requests..." ]
  /\ result (Server.waiting_for_request Sample.selects) = Ok tt.
Proof. repeat split; vm_compute; reflexivity. Qed.

(** ** Port validation *)

Lemma getitem3 {A} (a b c : A) :
  getitem [a; b; c] 0 = Ok a /\ getitem [a; b; c] 1 = Ok b
  /\ getitem [a; b; c] 2 = Ok c.
Proof. repeat split; reflexivity. Qed.

Ltac port_items :=
  repeat (progress
            (rewrite ?(proj1 (getitem3 _ _ _)),
                     ?(proj1 (proj2 (getitem3 _ _ _))),
                     ?(proj2 (proj2 (getitem3 _ _ _)));
             cbn [rbind])).
Lemma check_one_port_cases (py : interpreter) (port : pystr) :
  (exists z, int_opt py port = Some z /\ 1024 <= z <= 64000
             /\ Server.check_one_port py port = Ok tt)
  \/ (exists msg, Server.check_one_port py port = Raise (SystemExit msg)
                  /\ forall z, int_opt py port = Some z -> ~ 1024 <= z <= 64000).
Proof.
  unfold Server.check_one_port, int_of_str.
  destruct (int_opt py port) as [z|].
  - destruct (Z.leb_spec z 0).
    { right. eexists. split; [reflexivity|]. intros ? [= <-]. lia. }
    destruct (Z.leb_spec 1024 z); destruct (Z.leb_spec z 64000);
      cbn [andb negb];
      solve [ left; exists z; repeat split; lia
            | right; eexists; split; [reflexivity|]; intros ? [= <-]; lia ].
  - right. eexists. split; [reflexivity|]. discriminate.
Qed.

Lemma pystr_eqb_neq (a b : pystr) : pystr_eqb a b = false <-> a <> b.
Proof.
  unfold pystr_eqb. destruct (list_eq_dec Z.eq_dec a b); split;
    congruence.
Qed.

(** Arguments that are equal as text are refused as duplicates. *)
Lemma check_port_duplicate_strings (py : interpreter) (p0 p1 p2 : pystr) :
  p0 = p1 \/ p0 = p2 \/ p1 = p2 ->
  Server.check_port py [p0; p1; p2]
  = Raise (SystemExit (u "ERROR: Duplicate ports given")).
Proof.
  intros H. unfold Server.check_port. port_items.
  destruct (pystr_eqb p0 p1) eqn:E01; [reflexivity|].
  port_items.
  destruct (pystr_eqb p0 p2) eqn:E02; [reflexivity|].
  destruct (pystr_eqb p1 p2) eqn:E12; [reflexivity|].
  apply pystr_eqb_neq in E01, E02, E12. tauto.
Qed.

(** What [check_port] lets through: three arguments, pairwise different
    as text, each denoting an integer in [1024, 64000]. *)
Lemma check_port_accepts (py : interpreter) (p0 p1 p2 : pystr)
    (ports : list Z) :
  Server.check_port py [p0; p1; p2] = Ok ports ->
  p0 <> p1 /\ p0 <> p2 /\ p1 <> p2
  /\ exists z0 z1 z2,
       ports = [z0; z1; z2]
       /\ int_opt py p0 = Some z0 /\ int_opt py p1 = Some z1 /\ int_opt py p2 = Some z2
       /\ 1024 <= z0 <= 64000 /\ 1024 <= z1 <= 64000 /\ 1024 <= z2 <= 64000.
Proof.
  unfold Server.check_port. port_items.
  destruct (pystr_eqb p0 p1) eqn:E01; [discriminate|].
  port_items.
  destruct (pystr_eqb p0 p2) eqn:E02; [discriminate|].
  destruct (pystr_eqb p1 p2) eqn:E12; [discriminate|].
  apply pystr_eqb_neq in E01, E02, E12. cbn [orb Server.for_each_port].
  destruct (check_one_port_cases py p0) as [(z0 & I0 & R0 & C0) | (m & C0 & _)];
    rewrite C0; cbn [rbind]; [|discriminate].
  destruct (check_one_port_cases py p1) as [(z1 & I1 & R1 & C1) | (m & C1 & _)];
    rewrite C1; cbn [rbind]; [|discriminate].
  destruct (check_one_port_cases py p2) as [(z2 & I2 & R2 & C2) | (m & C2 & _)];
    rewrite C2; cbn [rbind]; [|discriminate].
  unfold Server.map_int, int_of_str. rewrite I0, I1, I2. cbn [rbind].
  intros [= <-]. repeat (split; [assumption|]).
  exists z0, z1, z2. repeat split; solve [assumption | lia].
Qed.

Lemma check_port_distinct_in_range (py : interpreter) (p0 p1 p2 : pystr)
    (z0 z1 z2 : Z) :
  p0 <> p1 -> p0 <> p2 -> p1 <> p2 ->
  int_opt py p0 = Some z0 -> int_opt py p1 = Some z1 -> int_opt py p2 = Some z2 ->
  1024 <= z0 <= 64000 -> 1024 <= z1 <= 64000 -> 1024 <= z2 <= 64000 ->
  Server.check_port py [p0; p1; p2] = Ok [z0; z1; z2].
Proof.
  intros N01 N02 N12 I0 I1 I2 R0 R1 R2.
  apply pystr_eqb_neq in N01, N02, N12.
  unfold Server.check_port. port_items. rewrite N01.
  port_items. rewrite N02, N12.
  cbn [orb Server.for_each_port].
  destruct (check_one_port_cases py p0) as [(? & _ & _ & C0) | (m & _ & C0)];
    [rewrite C0; cbn [rbind] | exfalso; exact (C0 z0 I0 R0)].
  destruct (check_one_port_cases py p1) as [(? & _ & _ & C1) | (m & _ & C1)];
    [rewrite C1; cbn [rbind] | exfalso; exact (C1 z1 I1 R1)].
  destruct (check_one_port_cases py p2) as [(? & _ & _ & C2) | (m & _ & C2)];
    [rewrite C2; cbn [rbind] | exfalso; exact (C2 z2 I2 R2)].
  unfold Server.map_int, int_of_str. rewrite I0, I1, I2. reflexivity.
Qed.

(** Every refusal is a [sys.exit]. *)
Lemma check_port_rejects_fatally (py : interpreter) (p0 p1 p2 : pystr) :
  (exists ports, Server.check_port py [p0; p1; p2] = Ok ports)
  \/ (exists msg, Server.check_port py [p0; p1; p2] = Raise (SystemExit msg)).
Proof.
  unfold Server.check_port. port_items.
  destruct (pystr_eqb p0 p1) eqn:E01; [right; eexists; reflexivity|].
  port_items.
  destruct (pystr_eqb p0 p2 || pystr_eqb p1 p2);
    [right; eexists; reflexivity|].
  cbn [Server.for_each_port].
  destruct (check_one_port_cases py p0) as [(z0 & I0 & R0 & C0) | (m & C0 & _)];
    rewrite C0; cbn [rbind]; [|right; eexists; reflexivity].
  destruct (check_one_port_cases py p1) as [(z1 & I1 & R1 & C1) | (m & C1 & _)];
    rewrite C1; cbn [rbind]; [|right; eexists; reflexivity].
  destruct (check_one_port_cases py p2) as [(z2 & I2 & R2 & C2) | (m & C2 & _)];
    rewrite C2; cbn [rbind]; [|right; eexists; reflexivity].
  unfold Server.map_int, int_of_str. rewrite I0, I1, I2. cbn [rbind].
  left. eexists. reflexivity.
Qed.

(** C2, as the code has it.  The duplicate test compares the arguments as
    text, before they are converted: "2000" and "02000" denote the same
    port, yet the check lets them through and the server goes on to bind
    with the port list [2000, 2000, 3000]. *)
Theorem numerically_equal_ports_pass_the_check :
  forall py : interpreter,
    let ports := map u ["2000"; "02000"; "3000"] in
    map (int_opt py) ports = [Some 2000; Some 2000; Some 3000]
    /\ Server.check_port py ports = Ok [2000; 2000; 3000].
Proof. intros py. split; vm_compute; reflexivity. Qed.

(** * Further properties of the two programs *)

Import Observe.

(** ** Port arguments *)

(** On ASCII text of at most 640 digits [int] does not depend on the
    interpreter's tables or limit. *)
Lemma int_opt_ascii (py : interpreter) (s : pystr) :
  forallb (fun c => c <? 128) s = true ->
  (length (filter is_digit s) <= 640)%nat ->
  int_opt py s = int_ascii s.
Proof.
  intros Ha Hd. unfold int_opt, ascii_form, over_limit. rewrite Ha.
  destruct (Z.ltb_spec 640 (Z.of_nat (length (filter is_digit s))));
    [lia | reflexivity].
Qed.

(** Some conversions, with the tables and the limit of [Scenario.interp]:
    leading zeros, a sign, an underscore and blanks are read; U+001C is
    white space for [str.strip] but not for [int]; a no-break space and
    full-width digits are read; 4301 digits are over the limit. *)
Example int_conversions :
  int_opt Scenario.interp (u " +02_000 ") = Some 2000
  /\ int_opt Scenario.interp (u "2__000") = None
  /\ int_opt Scenario.interp (28 :: u "2000") = None
  /\ int_opt Scenario.interp (160 :: u "2000") = Some 2000
  /\ int_opt Scenario.interp (u "２０００") = Some 2000
  /\ int_opt Scenario.interp (u "２０００x") = None
  /\ int_opt Scenario.interp (repeat 48 4301) = None
  /\ int_opt (mk_interpreter (fun _ => false) (fun _ => None) 0)
       (repeat 48 4301) = Some 0.
Proof. repeat split; vm_compute; reflexivity. Qed.

(** X1.  Whatever the interpreter's tables and digit limit, [check_port]
    returns the ports [z0, z1, z2] for three arguments exactly when the
    arguments differ pairwise as text and [int] turns each into an integer
    in [1024, 64000], these integers being [z0], [z1], [z2]. *)
Theorem check_port_accepts_exactly :
  forall (py : interpreter) (p0 p1 p2 : pystr) (z0 z1 z2 : Z),
    Server.check_port py [p0; p1; p2] = Ok [z0; z1; z2]
    <-> (p0 <> p1 /\ p0 <> p2 /\ p1 <> p2
         /\ int_opt py p0 = Some z0 /\ int_opt py p1 = Some z1
         /\ int_opt py p2 = Some z2
         /\ 1024 <= z0 <= 64000 /\ 1024 <= z1 <= 64000
         /\ 1024 <= z2 <= 64000).
Proof.
  intros py p0 p1 p2 z0 z1 z2. split.
  - intros H. apply check_port_accepts in H.
    destruct H as (N01 & N02 & N12 & y0 & y1 & y2 & E & I0 & I1 & I2 & R).
    injection E as -> -> ->. repeat (split; [assumption|]). exact R.
  - intros (N01 & N02 & N12 & I0 & I1 & I2 & R0 & R1 & R2).
    apply check_port_distinct_in_range; assumption.
Qed.

(** X2.  Two arguments that are equal as text are refused as duplicates
    whatever they are, numbers or not: the duplicate test comes first. *)
Theorem textual_duplicates_are_refused :
  forall (py : interpreter) (p0 p1 p2 : pystr),
    p0 = p1 \/ p0 = p2 \/ p1 = p2 ->
    Server.check_port py [p0; p1; p2]
    = Raise (SystemExit (u "ERROR: Duplicate ports given")).
Proof. exact check_port_duplicate_strings. Qed.

Lemma textual_duplicates_are_refused_witness :
  (u "abc" = u "2000" \/ u "abc" = u "abc" \/ u "2000" = u "abc")
  /\ Server.check_port Scenario.interp [u "abc"; u "2000"; u "abc"]
     = Raise (SystemExit (u "ERROR: Duplicate ports given")).
Proof.
  assert (H : u "abc" = u "2000" \/ u "abc" = u "abc" \/ u "2000" = u "abc")
    by (right; left; reflexivity).
  split; [exact H|].
  apply (textual_duplicates_are_refused Scenario.interp
           (u "abc") (u "2000") (u "abc")).
  exact H.
Defined.

(** X3.  Whatever the three arguments are, [check_port] either returns the
    ports or ends in [sys.exit]: the [ValueError] of [int] never escapes. *)
Theorem check_port_returns_or_exits :
  forall (py : interpreter) (p0 p1 p2 : pystr),
    (exists ports, Server.check_port py [p0; p1; p2] = Ok ports)
    \/ (exists msg, Server.check_port py [p0; p1; p2] = Raise (SystemExit msg)).
Proof. exact check_port_rejects_fatally. Qed.

Lemma check_one_port_ok (py : interpreter) (p : pystr) :
  Server.check_one_port py p = Ok tt
  <-> exists z, int_opt py p = Some z /\ 1024 <= z <= 64000.
Proof.
  split.
  - intros H.
    destruct (check_one_port_cases py p) as [(z & I & R & _) | (m & C & _)].
    + exists z. auto.
    + rewrite C in H. discriminate.
  - intros (z & I & R).
    destruct (check_one_port_cases py p) as [(_ & _ & _ & C) | (m & _ & C)].
    + exact C.
    + exfalso. exact (C z I R).
Qed.

Lemma check_port_argument_cases (py : interpreter) (p : pystr) :
  (exists z, int_opt py p = Some z /\ 1024 <= z <= 64000
             /\ ClientStart.check_port_argument py p = Ok z)
  \/ (exists msg, ClientStart.check_port_argument py p = Raise (SystemExit msg)
                  /\ forall z, int_opt py p = Some z -> ~ 1024 <= z <= 64000).
Proof.
  unfold ClientStart.check_port_argument, int_of_str.
  destruct (int_opt py p) as [z|].
  - destruct (Z.ltb_spec z 0).
    { right. eexists. split; [reflexivity|]. intros ? [= <-]. lia. }
    rewrite Z.gtb_ltb.
    destruct (Z.ltb_spec z 1024); destruct (Z.ltb_spec 64000 z);
      cbn [orb];
      solve [ left; exists z; repeat split; lia
            | right; eexists; split; [reflexivity|]; intros ? [= <-]; lia ].
  - right. eexists. split; [reflexivity|]. discriminate.
Qed.

(** X4.  The client's port check and one turn of the server's accept the
    same arguments. *)
Theorem client_and_server_accept_the_same_ports :
  forall (py : interpreter) (p : pystr),
    (exists z, ClientStart.check_port_argument py p = Ok z)
    <-> Server.check_one_port py p = Ok tt.
Proof.
  intros py p. rewrite check_one_port_ok. split.
  - intros [z H].
    destruct (check_port_argument_cases py p) as [(y & I & R & C) | (m & C & _)].
    + exists y. auto.
    + rewrite C in H. discriminate.
  - intros (z & I & R).
    destruct (check_port_argument_cases py p) as [(y & _ & _ & C) | (m & _ & C)].
    + exists y. exact C.
    + exfalso. exact (C z I R).
Qed.

(** ** The localized text: what is missing *)

Lemma unsupported_has_no_months (language : pystr) :
  ~ supported language ->
  Server.dict_getitem Server.MONTH_NAMES language = Raise KeyError.
Proof.
  intros H. unfold supported in H. cbn [In] in H.
  unfold Server.MONTH_NAMES. cbn [Server.dict_getitem].
  assert (E1 : pystr_eqb Server.English language = false)
    by (apply pystr_eqb_neq; tauto).
  assert (E2 : pystr_eqb Server.Maori language = false)
    by (apply pystr_eqb_neq; tauto).
  assert (E3 : pystr_eqb Server.German language = false)
    by (apply pystr_eqb_neq; tauto).
  rewrite E1, E2, E3. reflexivity.
Qed.

(** X5.  For a language other than the three of the month table, the text
    function raises [KeyError] at the table lookup, whatever the request
    type, and so does [create_response]. *)
Theorem unsupported_language_is_a_key_error :
  forall (now : datetime) (language : pystr) (request_type : Z),
    ~ supported language ->
    Server.tell_it_what_it_is now language request_type = Raise KeyError
    /\ Server.create_response now language request_type = Raise KeyError.
Proof.
  intros now language rt H.
  assert (E : Server.tell_it_what_it_is now language rt = Raise KeyError).
  { unfold Server.tell_it_what_it_is.
    rewrite (unsupported_has_no_months language H). reflexivity. }
  split; [exact E|]. unfold Server.create_response. rewrite E. reflexivity.
Qed.

Lemma unsupported_language_is_a_key_error_witness :
  ~ supported Scenario.french
  /\ Server.tell_it_what_it_is Sample.now Scenario.french Server.REQUEST_DATE
     = Raise KeyError
  /\ Server.create_response Sample.now Scenario.french Server.REQUEST_DATE
     = Raise KeyError.
Proof.
  assert (H : ~ supported Scenario.french).
  { unfold supported. cbn [In]. intros [H | [H | [H | []]]];
      vm_compute in H; discriminate H. }
  split; [exact H|].
  apply (unsupported_language_is_a_key_error Sample.now Scenario.french
           Server.REQUEST_DATE).
  exact H.
Defined.

(** X6.  For a supported language and a request type that is neither DATE
    nor TIME, the text function reaches no [return] and yields [None];
    [create_response] then fails with [AttributeError] when it encodes the
    text. *)
Theorem other_request_type_has_no_text :
  forall (now : datetime) (language : pystr) (request_type : Z),
    valid_datetime now ->
    supported language ->
    request_type <> Server.REQUEST_DATE ->
    request_type <> Server.REQUEST_TIME ->
    Server.tell_it_what_it_is now language request_type = Ok None
    /\ Server.create_response now language request_type
       = Raise AttributeError.
Proof.
  intros now language rt (_ & Hm & _) Hl Hd Ht.
  destruct (month_name_exists language (month now) Hl Hm)
    as (names & name & Hnames & Hname & _).
  assert (E : Server.tell_it_what_it_is now language rt = Ok None).
  { unfold Server.tell_it_what_it_is. rewrite Hnames. cbn [rbind].
    rewrite Hname. cbn [rbind].
    apply Z.eqb_neq in Hd, Ht. rewrite Hd, Ht. reflexivity. }
  split; [exact E|]. unfold Server.create_response. rewrite E. reflexivity.
Qed.

Lemma other_request_type_has_no_text_witness :
  valid_datetime Sample.now
  /\ supported Server.English
  /\ 3 <> Server.REQUEST_DATE
  /\ 3 <> Server.REQUEST_TIME
  /\ Server.tell_it_what_it_is Sample.now Server.English 3 = Ok None
  /\ Server.create_response Sample.now Server.English 3
     = Raise AttributeError.
Proof.
  assert (Hv : valid_datetime Sample.now) by (unfold valid_datetime; cbn; lia).
  assert (Hl : supported Server.English) by (left; reflexivity).
  assert (Hd : 3 <> Server.REQUEST_DATE) by (vm_compute; discriminate).
  assert (Ht : 3 <> Server.REQUEST_TIME) by (vm_compute; discriminate).
  split; [exact Hv|]. split; [exact Hl|]. split; [exact Hd|].
  split; [exact Ht|].
  apply (other_request_type_has_no_text Sample.now Server.English 3).
  - exact Hv.
  - exact Hl.
  - exact Hd.
  - exact Ht.
Defined.

(** ** The dispatch loop: what is sent, and to whom *)

Lemma trace_bind {A B} (p : prog A) (k : A -> prog B) :
  trace (bind p k)
  = trace p ++ match result p with
               | Ok a => trace (k a)
               | Raise _ => []
               end.
Proof.
  destruct p as [tr [a|e]]; cbn [bind trace result fst snd].
  - destruct (k a). reflexivity.
  - rewrite app_nil_r. reflexivity.
Qed.

Lemma sent_app {A} (tr tr' : list event) (r r' r'' : res A) :
  sent (tr ++ tr', r) = sent (tr, r') ++ sent (tr', r'').
Proof. unfold sent, trace. cbn [fst]. apply flat_map_app. Qed.

Lemma handle_ready_valid :
  forall (s : Server.sock) (data : bytes) (host : pystr) (port : Z)
         (now : datetime) (send_ok : bool),
    valid_datetime now ->
    Server.valid_dt_request data = ([], Ok true) ->
    exists (request_type : Z) (response : bytes),
      Server.extract_request_type data = Ok request_type
      /\ Server.create_response now (Server.get_language s) request_type
         = Ok response
      /\ Server.handle_ready
           (Server.mk_ready s (Received data host port) now send_ok)
         = (Print (request_note (Server.get_language s) request_type host)
              :: (if send_ok
                  then [SendTo response host port; Print (u "Response sent")]
                  else [Print (u "ERROR: Sending failed, dropping packet")]),
            Ok tt).
Proof.
  intros s data host port now send_ok Hv Hvalid.
  pose proof Hvalid as Hc. rewrite valid_dt_request_spec in Hc.
  destruct (first_failed_check data) as [reason|] eqn:Hf; [discriminate|].
  apply first_failed_check_none in Hf. destruct Hf as (Hlen & _ & _ & Hk).
  assert (Hl : supported (Server.get_language s))
    by (destruct s; cbn; tauto).
  destruct (create_response_spec now _ (u16 data 4) Hv Hl Hk)
    as (text & Ht & Hs & Hb & He & Hr).
  exists (u16 data 4), (built_response now (Server.get_language s)
                          (flat_map enc_char text)).
  split; [apply extract_request_type_spec; lia|]. split; [exact Hr|].
  unfold Server.handle_ready.
  cbn [Server.r_recv Server.r_sock Server.r_now Server.r_send_ok].
  rewrite Hvalid. cbn [bind ret negb app].
  rewrite (extract_request_type_spec data) by lia.
  cbn [lift bind print app]. rewrite Hr.
  rewrite send_response_fits by (rewrite built_length; lia).
  destruct send_ok; reflexivity.
Qed.



(** X8.  A request the validator accepts is answered once: the server
    prints which language got which request from whom, builds the
    response for the request type read off the datagram, and sends it to
    the address the request came from; when the send fails it prints the
    failure instead.  Either way the loop body returns normally. *)
Theorem valid_request_is_answered :
  forall (s : Server.sock) (data : bytes) (host : pystr) (port : Z)
         (now : datetime) (send_ok : bool),
    valid_datetime now ->
    Server.valid_dt_request data = ([], Ok true) ->
    exists (request_type : Z) (response : bytes),
      Server.extract_request_type data = Ok request_type
      /\ Server.create_response now (Server.get_language s) request_type
         = Ok response
      /\ Server.handle_ready
           (Server.mk_ready s (Received data host port) now send_ok)
         = (Print (request_note (Server.get_language s) request_type host)
              :: (if send_ok
                  then [SendTo response host port; Print (u "Response sent")]
                  else [Print (u "ERROR: Sending failed, dropping packet")]),
            Ok tt).
Proof. exact handle_ready_valid. Qed.

Lemma valid_request_is_answered_witness :
  valid_datetime Sample.now
  /\ Server.valid_dt_request Sample.request = ([], Ok true)
  /\ exists (request_type : Z) (response : bytes),
       Server.extract_request_type Sample.request = Ok request_type
       /\ Server.create_response Sample.now
            (Server.get_language Server.gersock) request_type
          = Ok response
       /\ Server.handle_ready
            (Server.mk_ready Server.gersock
               (Received Sample.request Sample.host 40000) Sample.now false)
          = (Print (request_note (Server.get_language Server.gersock)
                      request_type Sample.host)
               :: (if false
                   then [SendTo response Sample.host 40000;
                         Print (u "Response sent")]
                   else [Print (u "ERROR: Sending failed, dropping packet")]),
             Ok tt).
Proof.
  assert (Hv : valid_datetime Sample.now) by (unfold valid_datetime; cbn; lia).
  assert (Hr : Server.valid_dt_request Sample.request = ([], Ok true))
    by (vm_compute; reflexivity).
  split; [exact Hv|]. split; [exact Hr|].
  apply (valid_request_is_answered Server.gersock Sample.request Sample.host
           40000 Sample.now false).
  - exact Hv.
  - exact Hr.
Defined.

Lemma sent_send_response (response : bytes) host port send_ok :
  sent (Server.send_response response host port send_ok) = []
  \/ ((length response < 255)%nat /\ send_ok = true
      /\ Server.send_response response host port send_ok
         = ([SendTo response host port; Print (u "Response sent")], Ok tt)).
Proof.
  destruct (Nat.le_gt_cases 255 (length response)) as [H|H].
  - left. rewrite (send_response_oversized _ _ _ _ H). reflexivity.
  - rewrite (send_response_fits _ _ _ _ H). destruct send_ok.
    + right. repeat split. exact H.
    + left. reflexivity.
Qed.

Lemma handle_ready_sends :
  forall r : Server.ready,
    sent (Server.handle_ready r) = []
    \/ exists (data : bytes) (host : pystr) (port : Z) (request_type : Z)
              (response : bytes),
         Server.r_recv r = Received data host port
         /\ Server.valid_dt_request data = ([], Ok true)
         /\ Server.extract_request_type data = Ok request_type
         /\ Server.create_response (Server.r_now r)
              (Server.get_language (Server.r_sock r)) request_type
            = Ok response
         /\ sent (Server.handle_ready r) = [response]
         /\ In (SendTo response host port) (trace (Server.handle_ready r)).
Proof.
  intros [s recv now send_ok].
  cbn [Server.r_recv Server.r_sock Server.r_now Server.r_send_ok].
  unfold Server.handle_ready.
  cbn [Server.r_recv Server.r_sock Server.r_now Server.r_send_ok].
  destruct recv as [| |data host port]; try (left; reflexivity).
  pose proof (valid_dt_request_spec data) as Hv.
  destruct (first_failed_check data) as [reason|] eqn:Hf;
    rewrite Hv; [left; reflexivity|].
  apply first_failed_check_none in Hf. destruct Hf as (Hlen & _).
  cbn [bind ret negb app].
  rewrite (extract_request_type_spec data) by lia.
  cbn [lift bind print app].
  destruct (Server.create_response now (Server.get_language s) (u16 data 4))
    as [response|e] eqn:Hr.
  2:{ left. destruct e; reflexivity. }
  destruct (sent_send_response response host port send_ok)
    as [Hs | (Hlt & -> & Hs)].
  - left.
    destruct (Server.send_response response host port send_ok) as [tr [[]|e]].
    + exact Hs.
    + unfold sent, trace in Hs. cbn [fst] in Hs.
      destruct e; unfold sent, trace; cbn;
        rewrite ?flat_map_app, ?Hs; reflexivity.
  - right. exists data, host, port, (u16 data 4), response.
    rewrite Hs. split; [reflexivity|]. split; [exact Hv|].
    split; [apply extract_request_type_spec; lia|].
    split; [exact Hr|]. split; [reflexivity|]. cbn. auto.
Qed.

(** X9.  The loop body sends nothing, or exactly one datagram: the response
    built for a datagram the validator accepted, to the address that
    datagram came from. *)
Theorem responses_go_to_validated_senders :
  forall r : Server.ready,
    sent (Server.handle_ready r) = []
    \/ exists (data : bytes) (host : pystr) (port : Z) (request_type : Z)
              (response : bytes),
         Server.r_recv r = Received data host port
         /\ Server.valid_dt_request data = ([], Ok true)
         /\ Server.extract_request_type data = Ok request_type
         /\ Server.create_response (Server.r_now r)
              (Server.get_language (Server.r_sock r)) request_type
            = Ok response
         /\ sent (Server.handle_ready r) = [response]
         /\ In (SendTo response host port) (trace (Server.handle_ready r)).
Proof. exact handle_ready_sends. Qed.

Lemma sent_bind {A B} (p : prog A) (k : A -> prog B) :
  sent (bind p k)
  = sent p ++ match result p with
              | Ok a => sent (k a)
              | Raise _ => []
              end.
Proof.
  unfold sent. rewrite trace_bind, flat_map_app.
  destruct (result p); reflexivity.
Qed.

Lemma sent_handle_ready_once (r : Server.ready) :
  (length (sent (Server.handle_ready r)) <= 1)%nat.
Proof.
  destruct (handle_ready_sends r)
    as [E | (d & h & p & rt & resp & _ & _ & _ & _ & E & _)];
    rewrite E; simpl; lia.
Qed.

Lemma sent_for_readable (readable : list Server.ready) :
  (length (sent (Server.for_readable readable)) <= length readable)%nat.
Proof.
  induction readable as [|r rest IH]; [simpl; lia|].
  cbn [Server.for_readable]. rewrite sent_bind, length_app.
  pose proof (sent_handle_ready_once r).
  destruct (result (Server.handle_ready r)); cbn [length]; lia.
Qed.

Lemma sent_while_true (selects : list (list Server.ready)) :
  (length (sent (Server.while_true selects)) <= length (concat selects))%nat.
Proof.
  induction selects as [|readable rest IH]; [simpl; lia|].
  cbn [Server.while_true concat]. rewrite !sent_bind, !length_app.
  cbn [print result snd sent trace fst flat_map app length].
  pose proof (sent_for_readable readable).
  destruct (result (Server.for_readable readable)); rewrite ?length_app; cbn [length]; lia.
Qed.

Lemma sent_waiting_for_request (selects : list (list Server.ready)) :
  sent (Server.waiting_for_request selects)
  = sent (Server.while_true selects).
Proof.
  unfold Server.waiting_for_request.
  destruct (Server.while_true selects) as [tr [[]|e]].
  - unfold sent, trace. cbn. rewrite flat_map_app. cbn.
    rewrite app_nil_r. reflexivity.
  - destruct e; unfold sent, trace; cbn;
      rewrite ?flat_map_app; cbn; rewrite ?app_nil_r; reflexivity.
Qed.

(** X10.  Over any run of the loop, the server sends at most as many
    datagrams as it was handed: no request is answered twice. *)
Theorem at_most_one_response_per_datagram :
  forall selects : list (list Server.ready),
    (length (sent (Server.waiting_for_request selects))
     <= Observe.datagrams selects)%nat.
Proof.
  intros selects. rewrite sent_waiting_for_request.
  apply sent_while_true.
Qed.

(** X11.  As long as the clock gives valid timestamps, nothing that
    arrives makes the server leave its loop: short, foreign or malformed
    datagrams, receive errors and send failures are all survived. *)
Theorem server_keeps_serving :
  forall selects : list (list Server.ready),
    Forall (Forall (fun r => valid_datetime (Server.r_now r))) selects ->
    result (Server.waiting_for_request selects) = Ok tt.
Proof. exact waiting_for_request_keeps_serving. Qed.

Lemma server_keeps_serving_witness :
  Forall (Forall (fun r => valid_datetime (Server.r_now r))) Sample.selects
  /\ result (Server.waiting_for_request Sample.selects) = Ok tt.
Proof.
  assert (H : Forall (Forall (fun r => valid_datetime (Server.r_now r)))
                     Sample.selects)
    by (repeat constructor; unfold valid_datetime; cbn; lia).
  split; [exact H|].
  apply (server_keeps_serving Sample.selects). exact H.
Defined.

(** ** Start-up *)

Import ServerStart.

Lemma bind_language_run (env : socket_env) (ports : list Z) (name : pystr)
    (s : Server.sock) (i port : Z) (st : sockets) :
  getitem ports i = Ok port ->
  bind_language env ports name s i st
  = if create_ok env s then
      if bind_ok env s then
        ([binding_line name port; Open s; Bind s port], Ok tt, st ++ [s])
      else
        ([binding_line name port; Open s] ++ map Close (st ++ [s]),
         Raise (SystemExit (u "ERROR: Socket binding failed")), [])
    else ([binding_line name port], Raise SocketError, st).
Proof.
  intros H.
  unfold bind_language, sbind, scatch, slift, emit, socket_create,
    socket_bind, sockets_append, bind_failed, close_sockets, sraise.
  rewrite H.
  destruct (create_ok env s); [|reflexivity].
  destruct (bind_ok env s); cbn; rewrite ?app_nil_r; reflexivity.
Qed.

Lemma open_and_bind_socket_run (env : socket_env) (p0 p1 p2 : Z) :
  let '(tr, r, st) := open_and_bind_socket env [p0; p1; p2] [] in
  match r with
  | Ok _ =>
    (forall s, create_ok env s = true /\ bind_ok env s = true)
    /\ opened tr = [Server.ensock; Server.masock; Server.gersock]
    /\ bound tr = [(Server.ensock, p0); (Server.masock, p1);
                     (Server.gersock, p2)]
    /\ closed tr = []
    /\ st = [Server.ensock; Server.masock; Server.gersock]
  | Raise e =>
    (exists s, create_ok env s = false \/ bind_ok env s = false)
    /\ (e = SystemExit (u "ERROR: Socket binding failed")
        \/ e = SystemExit (u "ERROR: Socket creation failed"))
    /\ closed tr = opened tr
    /\ st = []
  end.
Proof.
  unfold open_and_bind_socket, scatch, sbind.
  rewrite (bind_language_run env _ _ _ 0 p0) by reflexivity.
  destruct (create_ok env Server.ensock) eqn:C1.
  2:{ cbn. split; [exists Server.ensock; auto|]. auto. }
  destruct (bind_ok env Server.ensock) eqn:B1.
  2:{ cbn. split; [exists Server.ensock; auto|]. auto. }
  rewrite (bind_language_run env _ _ _ 1 p1) by reflexivity.
  destruct (create_ok env Server.masock) eqn:C2.
  2:{ cbn. split; [exists Server.masock; auto|]. auto. }
  destruct (bind_ok env Server.masock) eqn:B2.
  2:{ cbn. split; [exists Server.masock; auto|]. auto. }
  rewrite (bind_language_run env _ _ _ 2 p2) by reflexivity.
  destruct (create_ok env Server.gersock) eqn:C3.
  2:{ cbn. split; [exists Server.gersock; auto|]. auto. }
  destruct (bind_ok env Server.gersock) eqn:B3.
  2:{ cbn. split; [exists Server.gersock; auto|]. auto. }
  cbn. split; [|auto]. intros []; auto.
Qed.

(** X12.  When [open_and_bind_socket] fails, at whichever socket and at
    creation or at binding, every socket opened so far has been closed, in
    the order of opening, [self.sockets] is empty, and the method ends in
    [sys.exit] with the binding or the creation message. *)
Theorem failed_startup_closes_every_socket :
  forall (env : socket_env) (p0 p1 p2 : Z) (e : exn),
    outcome (open_and_bind_socket env [p0; p1; p2] []) = Raise e ->
    closed (actions (open_and_bind_socket env [p0; p1; p2] []))
    = opened (actions (open_and_bind_socket env [p0; p1; p2] []))
    /\ sockets_left (open_and_bind_socket env [p0; p1; p2] []) = []
    /\ (e = SystemExit (u "ERROR: Socket binding failed")
        \/ e = SystemExit (u "ERROR: Socket creation failed"))
    /\ exists s, create_ok env s = false \/ bind_ok env s = false.
Proof.
  intros env p0 p1 p2 e.
  pose proof (open_and_bind_socket_run env p0 p1 p2) as H.
  destruct (open_and_bind_socket env [p0; p1; p2] []) as [[tr r] st].
  cbn [outcome actions sockets_left fst snd]. intros ->.
  destruct H as (Hs & He & Hc & Hst). auto.
Qed.

Lemma failed_startup_closes_every_socket_witness :
  outcome (open_and_bind_socket Scenario.port_taken [5000; 5001; 5002] [])
  = Raise (SystemExit (u "ERROR: Socket binding failed"))
  /\ closed (actions (open_and_bind_socket Scenario.port_taken
                        [5000; 5001; 5002] []))
     = opened (actions (open_and_bind_socket Scenario.port_taken
                          [5000; 5001; 5002] []))
  /\ sockets_left (open_and_bind_socket Scenario.port_taken
                     [5000; 5001; 5002] []) = []
  /\ (SystemExit (u "ERROR: Socket binding failed")
      = SystemExit (u "ERROR: Socket binding failed")
      \/ SystemExit (u "ERROR: Socket binding failed")
         = SystemExit (u "ERROR: Socket creation failed"))
  /\ exists s, create_ok Scenario.port_taken s = false
               \/ bind_ok Scenario.port_taken s = false.
Proof.
  assert (H : outcome (open_and_bind_socket Scenario.port_taken
                         [5000; 5001; 5002] [])
              = Raise (SystemExit (u "ERROR: Socket binding failed")))
    by (vm_compute; reflexivity).
  split; [exact H|].
  apply (failed_startup_closes_every_socket Scenario.port_taken
           5000 5001 5002).
  exact H.
Defined.

(** X13.  When [open_and_bind_socket] returns, every creation and every
    bind succeeded: the three sockets were opened in the order English,
    Māori, German, each bound to the port at its position, none was closed,
    and [self.sockets] holds the three. *)
Theorem sockets_are_bound_in_order :
  forall (env : socket_env) (p0 p1 p2 : Z),
    outcome (open_and_bind_socket env [p0; p1; p2] []) = Ok tt ->
    (forall s, create_ok env s = true /\ bind_ok env s = true)
    /\ opened (actions (open_and_bind_socket env [p0; p1; p2] []))
       = [Server.ensock; Server.masock; Server.gersock]
    /\ bound (actions (open_and_bind_socket env [p0; p1; p2] []))
       = [(Server.ensock, p0); (Server.masock, p1); (Server.gersock, p2)]
    /\ closed (actions (open_and_bind_socket env [p0; p1; p2] [])) = []
    /\ sockets_left (open_and_bind_socket env [p0; p1; p2] [])
       = [Server.ensock; Server.masock; Server.gersock].
Proof.
  intros env p0 p1 p2.
  pose proof (open_and_bind_socket_run env p0 p1 p2) as H.
  destruct (open_and_bind_socket env [p0; p1; p2] []) as [[tr r] st].
  cbn [outcome actions sockets_left fst snd]. intros ->. exact H.
Qed.

Lemma sockets_are_bound_in_order_witness :
  outcome (open_and_bind_socket Scenario.cooperative [5000; 5001; 5002] [])
  = Ok tt
  /\ (forall s, create_ok Scenario.cooperative s = true
                /\ bind_ok Scenario.cooperative s = true)
  /\ opened (actions (open_and_bind_socket Scenario.cooperative
                        [5000; 5001; 5002] []))
     = [Server.ensock; Server.masock; Server.gersock]
  /\ bound (actions (open_and_bind_socket Scenario.cooperative
                       [5000; 5001; 5002] []))
     = [(Server.ensock, 5000); (Server.masock, 5001); (Server.gersock, 5002)]
  /\ closed (actions (open_and_bind_socket Scenario.cooperative
                        [5000; 5001; 5002] [])) = []
  /\ sockets_left (open_and_bind_socket Scenario.cooperative
                     [5000; 5001; 5002] [])
     = [Server.ensock; Server.masock; Server.gersock].
Proof.
  assert (H : outcome (open_and_bind_socket Scenario.cooperative
                         [5000; 5001; 5002] []) = Ok tt)
    by (vm_compute; reflexivity).
  split; [exact H|].
  apply (sockets_are_bound_in_order Scenario.cooperative 5000 5001 5002).
  exact H.
Defined.

(** ** The client's verdict on a packet *)

Lemma process_packet_verdict (pkt : bytes) :
  match Verdict.first_error pkt with
  | Some e =>
    Client.process_packet pkt = ([], Raise (SystemExit (Verdict.message e)))
  | None =>
    exists text,
      utf8_decode_opt (text_bytes pkt) = Some text
      /\ Client.process_packet pkt = (map Print (report pkt text), Ok tt)
  end.
Proof.
  unfold Verdict.first_error, Client.process_packet.
  destruct (Nat.ltb_spec (length pkt) 13) as [Hlen|Hlen]; [reflexivity|].
  rewrite (read_fields_spec pkt Hlen). unfold Client.MAGIC_NUM.
  cbn [ret lift bind app fields_of Client.magic_no Client.packet_type
       Client.language_type Client.f_year Client.f_month Client.f_day
       Client.f_hour Client.f_minute Client.f_length existsb].
  rewrite !Z.gtb_ltb.
  replace ((u16 pkt 4 =? 1) || ((u16 pkt 4 =? 2) || ((u16 pkt 4 =? 3) || false)))
    with ((u16 pkt 4 =? 1) || (u16 pkt 4 =? 2) || (u16 pkt 4 =? 3))
    by (destruct (u16 pkt 4 =? 1), (u16 pkt 4 =? 2), (u16 pkt 4 =? 3);
        reflexivity).
  pose proof (byte_val_range (nth 10 pkt x00)) as Bh.
  pose proof (byte_val_range (nth 11 pkt x00)) as Bm.
  fold (u8 pkt 10) in Bh. fold (u8 pkt 11) in Bm.
  destruct (Z.eqb_spec (u16 pkt 0) 14075); cbn [negb]; [|reflexivity].
  destruct (Z.eqb_spec (u16 pkt 2) 2); cbn [negb]; [|reflexivity].
  destruct ((u16 pkt 4 =? 1) || (u16 pkt 4 =? 2) || (u16 pkt 4 =? 3)) eqn:El;
    cbn [negb]; [|reflexivity].
  destruct (Z.ltb_spec 2100 (u16 pkt 6)); [reflexivity|].
  destruct (Z.ltb_spec (u8 pkt 8) 1), (Z.leb_spec 1 (u8 pkt 8));
    try lia; cbn [orb andb negb]; [reflexivity|].
  destruct (Z.ltb_spec 12 (u8 pkt 8)), (Z.leb_spec (u8 pkt 8) 12);
    try lia; cbn [orb andb negb]; [reflexivity|].
  destruct (Z.ltb_spec (u8 pkt 9) 1), (Z.leb_spec 1 (u8 pkt 9));
    try lia; cbn [orb andb negb]; [reflexivity|].
  destruct (Z.ltb_spec 31 (u8 pkt 9)), (Z.leb_spec (u8 pkt 9) 31);
    try lia; cbn [orb andb negb]; [reflexivity|].
  destruct (Z.ltb_spec (u8 pkt 10) 0); [lia|]. cbn [orb].
  destruct (Z.ltb_spec 23 (u8 pkt 10)); [reflexivity|].
  destruct (Z.ltb_spec (u8 pkt 11) 0); [lia|]. cbn [orb].
  destruct (Z.ltb_spec 59 (u8 pkt 11)); [reflexivity|].
  destruct (Z.eqb_spec (Z.of_nat (length pkt)) (13 + u8 pkt 12));
    cbn [negb]; [|reflexivity].
  assert (Hin : In (u16 pkt 4) [1; 2; 3]).
  { cbn [In]. apply orb_true_iff in El. destruct El as [El|El].
    - apply orb_true_iff in El. destruct El as [El|El];
        apply Z.eqb_eq in El; lia.
    - apply Z.eqb_eq in El; lia. }
  rewrite (print_packet_stuff_spec pkt Hlen Hin).
  destruct (utf8_decode_opt (text_bytes pkt)) as [text|]; [|reflexivity].
  exists text. split; reflexivity.
Qed.

(** X16.  The client tests a packet in a fixed order (size, magic number,
    packet type, language, year, month, day, hour, minute, text length,
    text encoding) and exits with the message of the first test that
    fails, having printed nothing; a packet failing none of them is
    reported.  The lower bounds of the hour and minute tests play no part. *)
Theorem client_reports_the_first_failed_check :
  forall pkt : bytes,
    match Verdict.first_error pkt with
    | Some e =>
      Client.process_packet pkt
      = ([], Raise (SystemExit (Verdict.message e)))
    | None =>
      exists text,
        utf8_decode_opt (text_bytes pkt) = Some text
        /\ Client.process_packet pkt = (map Print (report pkt text), Ok tt)
    end.
Proof. exact process_packet_verdict. Qed.

Lemma first_error_of_built now language enc :
  valid_datetime now -> (length enc <= 255)%nat ->
  Verdict.first_error (built_response now language enc)
  = if 2100 <? year now then Some Verdict.BadYear
    else match utf8_decode_opt enc with
         | Some _ => None
         | None => Some Verdict.BadText
         end.
Proof.
  intros Hnow Henc. unfold Verdict.first_error.
  rewrite built_magic, built_type, built_language, built_length, built_text,
    (built_year _ _ _ Hnow), (built_month _ _ _ Hnow),
    (built_day _ _ _ Hnow), (built_hour _ _ _ Hnow),
    (built_minute _ _ _ Hnow), (built_text_length _ _ _ Henc).
  destruct Hnow as (H1 & H2 & H3 & H4 & H5).
  pose proof (language_code_range language) as Hc.
  destruct (Nat.ltb_spec (13 + length enc) 13); [lia|].
  cbn [existsb negb Z.eqb].
  assert (El : (language_code language =? 1)
               || ((language_code language =? 2)
                   || ((language_code language =? 3) || false)) = true).
  { destruct (Z.eqb_spec (language_code language) 1); [reflexivity|].
    destruct (Z.eqb_spec (language_code language) 2); [reflexivity|].
    destruct (Z.eqb_spec (language_code language) 3); [reflexivity|]. lia. }
  rewrite El. cbn [negb].
  destruct (2100 <? year now); [reflexivity|].
  destruct (Z.leb_spec 1 (month now)); [|lia].
  destruct (Z.leb_spec (month now) 12); [|lia].
  destruct (Z.leb_spec 1 (day now)); [|lia].
  destruct (Z.leb_spec (day now) 31); [|lia].
  destruct (Z.ltb_spec 23 (hour now)); [lia|].
  destruct (Z.ltb_spec 59 (minute now)); [lia|].
  cbn [andb negb].
  destruct (Z.eqb_spec (Z.of_nat (13 + length enc))
              (13 + Z.of_nat (length enc))); [|lia].
  reflexivity.
Qed.

(** X17.  The server encodes any year up to 9999, the client accepts none
    above 2100: for a timestamp after 2100 the response the server builds
    is refused by the client with "ERROR: Packet has invalid year". *)
Theorem far_future_response_is_refused :
  forall (now : datetime) (language : pystr) (request_type : Z),
    valid_datetime now ->
    2100 < year now ->
    supported language ->
    request_type = Server.REQUEST_DATE \/ request_type = Server.REQUEST_TIME ->
    exists response : bytes,
      Server.create_response now language request_type = Ok response
      /\ Client.process_packet response
         = ([], Raise (SystemExit (u "ERROR: Packet has invalid year"))).
Proof.
  intros now language rt Hv Hy Hl Hrt.
  destruct (create_response_spec now language rt Hv Hl Hrt)
    as (text & Ht & Hs & Hlen & He & Hc).
  eexists. split; [exact Hc|].
  pose proof (process_packet_verdict
                (built_response now language (flat_map enc_char text))) as H.
  rewrite (first_error_of_built _ _ _ Hv) in H by lia.
  destruct (Z.ltb_spec 2100 (year now)); [exact H | lia].
Qed.

Lemma far_future_response_is_refused_witness :
  valid_datetime Scenario.far_future
  /\ 2100 < year Scenario.far_future
  /\ supported Server.English
  /\ (Server.REQUEST_DATE = Server.REQUEST_DATE
      \/ Server.REQUEST_DATE = Server.REQUEST_TIME)
  /\ exists response : bytes,
       Server.create_response Scenario.far_future Server.English
         Server.REQUEST_DATE
       = Ok response
       /\ Client.process_packet response
          = ([], Raise (SystemExit (u "ERROR: Packet has invalid year"))).
Proof.
  assert (Hv : valid_datetime Scenario.far_future) by (unfold valid_datetime; cbn; lia).
  assert (Hy : 2100 < year Scenario.far_future) by (cbn; lia).
  assert (Hl : supported Server.English) by (left; reflexivity).
  split; [exact Hv|]. split; [exact Hy|]. split; [exact Hl|].
  split; [left; reflexivity|].
  apply (far_future_response_is_refused Scenario.far_future Server.English
           Server.REQUEST_DATE).
  - exact Hv.
  - exact Hy.
  - exact Hl.
  - left. reflexivity.
Defined.

(** ** The client's session *)

Lemma process_packet_only_prints (pkt : bytes) :
  sent (Client.process_packet pkt) = []
  /\ Observe.closes (Client.process_packet pkt) = 0%nat.
Proof.
  pose proof (process_packet_verdict pkt) as H.
  destruct (Verdict.first_error pkt) as [e|].
  - rewrite H. split; reflexivity.
  - destruct H as (text & _ & ->). split; reflexivity.
Qed.

Lemma session_run (rt : Z) (host : pystr) (port : Z) (sock_ok send_ok : bool)
    (recv : recv_result) :
  rt = Client.REQUEST_DATE \/ rt = Client.REQUEST_TIME ->
  exists request : bytes,
    Client.build_request_packet rt = Ok request
    /\ Server.valid_dt_request request = ([], Ok true)
    /\ Server.extract_request_type request = Ok rt
    /\ Client.session rt host port sock_ok send_ok recv
       = if negb sock_ok then
           ([], Raise (SystemExit (u "ERROR: Socket creation failed")))
         else if negb send_ok then
           ([CloseSockets], Raise (SystemExit (u "ERROR: Sending failed")))
         else
           match recv with
           | RecvTimeout =>
             ([SendTo request host port; Print (request_line rt host port);
               CloseSockets],
              Raise (SystemExit (u "ERROR: Receiving timed out")))
           | RecvError =>
             ([SendTo request host port; Print (request_line rt host port);
               CloseSockets],
              Raise (SystemExit (u "ERROR: Receiving failed")))
           | Received pkt _ _ =>
             (SendTo request host port :: Print (request_line rt host port)
                :: CloseSockets :: trace (Client.process_packet pkt),
              result (Client.process_packet pkt))
           end.
Proof.
  intros [-> | ->];
    (eexists; split; [vm_compute; reflexivity|];
     split; [vm_compute; reflexivity|];
     split; [vm_compute; reflexivity|];
     unfold Client.session, Client.create_and_send_packet,
       Client.receive_and_process_response;
     destruct sock_ok; [|reflexivity];
     destruct send_ok; [|reflexivity];
     destruct recv as [| |pkt h p]; try reflexivity;
     cbn [ret bind try_finally app negb];
     destruct (Client.process_packet pkt) as [tr r]; reflexivity).
Qed.

(** X18.  Whatever happens after the socket was created (the send fails,
    the receive times out or fails, the response is refused or reported),
    the client closes its socket exactly once; when the socket could not be
    created there is nothing to close. *)
Theorem client_closes_its_socket_once :
  forall (request_type : Z) (host : pystr) (port : Z)
         (sock_ok send_ok : bool) (recv : recv_result),
    request_type = Client.REQUEST_DATE \/ request_type = Client.REQUEST_TIME ->
    Observe.closes
      (Client.session request_type host port sock_ok send_ok recv)
    = if sock_ok then 1%nat else 0%nat.
Proof.
  intros rt host port sock_ok send_ok recv Hrt.
  destruct (session_run rt host port sock_ok send_ok recv Hrt)
    as (request & _ & _ & _ & ->).
  destruct sock_ok; [|reflexivity].
  destruct send_ok; [|reflexivity].
  destruct recv as [| |pkt h p]; try reflexivity.
  cbn [negb]. pose proof (proj2 (process_packet_only_prints pkt)) as H.
  unfold Observe.closes, trace in *. cbn [fst filter length] in *.
  rewrite H. reflexivity.
Qed.

Lemma client_closes_its_socket_once_witness :
  (Client.REQUEST_TIME = Client.REQUEST_DATE
   \/ Client.REQUEST_TIME = Client.REQUEST_TIME)
  /\ Observe.closes
       (Client.session Client.REQUEST_TIME Sample.host 5000 true false
          RecvTimeout)
     = if true then 1%nat else 0%nat.
Proof.
  split; [right; reflexivity|].
  apply (client_closes_its_socket_once Client.REQUEST_TIME Sample.host 5000
           true false RecvTimeout).
  right. reflexivity.
Defined.

(** X19.  When no response arrives within the timeout, or the receive
    fails, the client has printed the line about its request and nothing
    else, and exits with "ERROR: Receiving timed out" or "ERROR: Receiving
    failed": there is no second attempt. *)
Theorem client_gives_up_without_a_response :
  forall (request_type : Z) (host : pystr) (port : Z) (recv : recv_result),
    request_type = Client.REQUEST_DATE \/ request_type = Client.REQUEST_TIME ->
    recv = RecvTimeout \/ recv = RecvError ->
    printed (Client.session request_type host port true true recv)
    = [request_line request_type host port]
    /\ result (Client.session request_type host port true true recv)
       = Raise (SystemExit
                  (match recv with
                   | RecvTimeout => u "ERROR: Receiving timed out"
                   | _ => u "ERROR: Receiving failed"
                   end)).
Proof.
  intros rt host port recv Hrt Hrecv.
  destruct (session_run rt host port true true recv Hrt)
    as (request & _ & _ & _ & ->).
  destruct Hrecv as [-> | ->]; split; reflexivity.
Qed.

Lemma client_gives_up_without_a_response_witness :
  (Client.REQUEST_DATE = Client.REQUEST_DATE
   \/ Client.REQUEST_DATE = Client.REQUEST_TIME)
  /\ (RecvTimeout = RecvTimeout \/ RecvTimeout = RecvError)
  /\ printed (Client.session Client.REQUEST_DATE Sample.host 5000 true true
                RecvTimeout)
     = [request_line Client.REQUEST_DATE Sample.host 5000]
  /\ result (Client.session Client.REQUEST_DATE Sample.host 5000 true true
               RecvTimeout)
     = Raise (SystemExit
                (match RecvTimeout with
                 | RecvTimeout => u "ERROR: Receiving timed out"
                 | _ => u "ERROR: Receiving failed"
                 end)).
Proof.
  split; [left; reflexivity|]. split; [left; reflexivity|].
  apply (client_gives_up_without_a_response Client.REQUEST_DATE Sample.host
           5000 RecvTimeout).
  - left. reflexivity.
  - left. reflexivity.
Defined.

(** ** The client's command line *)

Lemma user_chooses_parameter_kind (lower : pystr -> pystr)
    (args : list pystr) (rt : Z) :
  ClientStart.user_chooses_parameter lower args = Ok rt ->
  (rt = Client.REQUEST_DATE /\ lower (nth 1 args []) = u "date")
  \/ (rt = Client.REQUEST_TIME /\ lower (nth 1 args []) = u "time").
Proof.
  unfold ClientStart.user_chooses_parameter.
  destruct (getitem args 1) as [arg|e] eqn:Ha; [|discriminate].
  assert (Hn : nth 1 args [] = arg).
  { unfold getitem in Ha. cbn [Z.ltb Z.compare] in Ha.
    destruct ((0 <=? 1) && (1 <? Z.of_nat (length args))); [|discriminate].
    change (Z.to_nat 1) with 1%nat in Ha.
    destruct (nth_error args 1) as [a|] eqn:E; [|discriminate].
    injection Ha as <-. apply nth_error_nth. exact E. }
  cbn [rbind]. rewrite Hn.
  destruct (pystr_eqb (lower arg) (u "date")) eqn:Ed.
  { intros [= <-]. left. split; [reflexivity|]. apply pystr_eqb_eq. exact Ed. }
  destruct (pystr_eqb (lower arg) (u "time")) eqn:Et; [|discriminate].
  intros [= <-]. right. split; [reflexivity|]. apply pystr_eqb_eq. exact Et.
Qed.

Lemma check_hostname_and_port_ok (py : interpreter)
    (getaddrinfo : pystr -> Z -> option (pystr * Z))
    (args : list pystr) (address : pystr * Z) :
  ClientStart.check_hostname_and_port py getaddrinfo args = Ok address ->
  exists (hostname : pystr) (z : Z),
    int_opt py (nth 3 args []) = Some z /\ 1024 <= z <= 64000
    /\ getaddrinfo hostname z = Some address.
Proof.
  unfold ClientStart.check_hostname_and_port.
  destruct (getitem args 3) as [arg|e] eqn:Ha; [|discriminate].
  assert (Hn : nth 3 args [] = arg).
  { unfold getitem in Ha. cbn [Z.ltb Z.compare] in Ha.
    destruct ((0 <=? 3) && (3 <? Z.of_nat (length args))); [|discriminate].
    change (Z.to_nat 3) with 3%nat in Ha.
    destruct (nth_error args 3) as [a|] eqn:E; [|discriminate].
    injection Ha as <-. apply nth_error_nth. exact E. }
  cbn [rbind]. rewrite Hn.
  destruct (check_port_argument_cases py arg) as [(z & I & R & C) | (m & C & _)];
    rewrite C; cbn [rbind]; [|discriminate].
  destruct (getitem args 2) as [hostname|e]; [|discriminate]. cbn [rbind].
  destruct (getaddrinfo hostname z) as [a|] eqn:G; [|discriminate].
  intros [= <-]. exists hostname, z. auto.
Qed.

(** X20.  Whatever its arguments, the interpreter, the lower-casing
    function and the resolver, the client sends nothing or exactly one
    datagram.  When it sends, it was given four arguments, the request
    type it chose is DATE or TIME, [int] of the port argument is an
    integer in [1024, 64000], the
    datagram goes to the address the resolver returned for that port, and
    it is a request the server's validator accepts and reads back as the
    chosen type. *)
Theorem client_sends_at_most_one_valid_request :
  forall (py : interpreter) (lower : pystr -> pystr)
         (getaddrinfo : pystr -> Z -> option (pystr * Z))
         (args : list pystr) (sock_ok send_ok : bool) (recv : recv_result),
  let run := ClientStart.main py lower getaddrinfo args sock_ok send_ok recv in
  sent run = []
  \/ exists (rt : Z) (hostname host : pystr) (z port : Z) (request : bytes),
       length args = 4%nat
       /\ (rt = Client.REQUEST_DATE \/ rt = Client.REQUEST_TIME)
       /\ ClientStart.user_chooses_parameter lower args = Ok rt
       /\ int_opt py (nth 3 args []) = Some z /\ 1024 <= z <= 64000
       /\ getaddrinfo hostname z = Some (host, port)
       /\ Client.build_request_packet rt = Ok request
       /\ Server.valid_dt_request request = ([], Ok true)
       /\ Server.extract_request_type request = Ok rt
       /\ sent run = [request]
       /\ In (SendTo request host port) (trace run).
Proof.
  intros py lower getaddrinfo args sock_ok send_ok recv.
  cbv zeta. unfold ClientStart.main, ClientStart.check_number_of_arguments.
  destruct (Nat.eqb_spec (length args) 4) as [Hlen|Hlen]; cbn [negb];
    [|left; reflexivity].
  cbn [lift bind app].
  destruct (ClientStart.user_chooses_parameter lower args) as [rt|e] eqn:Hu;
    [|left; reflexivity].
  destruct (ClientStart.check_hostname_and_port py getaddrinfo args)
    as [[host port]|e] eqn:Hh; [|left; reflexivity].
  cbn [fst snd].
  change (Client.create_and_send_packet rt host port sock_ok send_ok ;;;
          Client.receive_and_process_response recv)
    with (Client.session rt host port sock_ok send_ok recv).
  assert (Hrt : rt = Client.REQUEST_DATE \/ rt = Client.REQUEST_TIME)
    by (destruct (user_chooses_parameter_kind lower args rt Hu)
          as [[H _] | [H _]]; auto).
  destruct (session_run rt host port sock_ok send_ok recv Hrt)
    as (request & Hb & Hv & Hx & Hs).
  destruct (check_hostname_and_port_ok py getaddrinfo args _ Hh)
    as (hostname & z & Hi & Hr & Hg).
  assert (Hsent :
            sent (Client.session rt host port sock_ok send_ok recv) = []
            \/ (sent (Client.session rt host port sock_ok send_ok recv)
                = [request]
                /\ In (SendTo request host port)
                      (trace (Client.session rt host port sock_ok send_ok
                                recv)))).
  { rewrite Hs. destruct sock_ok; [|left; reflexivity].
    destruct send_ok; [|left; reflexivity].
    right. destruct recv as [| |pkt h p]; cbn [negb].
    - split; [reflexivity | left; reflexivity].
    - split; [reflexivity | left; reflexivity].
    - pose proof (proj1 (process_packet_only_prints pkt)) as Hp.
      unfold sent, trace in *. cbn [fst flat_map app] in *.
      rewrite Hp. split; [reflexivity | left; reflexivity]. }
  destruct (Client.session rt host port sock_ok send_ok recv) as [tr r].
  cbn [app]. destruct Hsent as [E | [E I]]; [left; exact E|].
  right. exists rt, hostname, host, z, port, request.
  repeat (split; [first [assumption | reflexivity]|]). assumption.
Qed.

(** ** The server's [main] *)

Lemma four_arguments (argv : list pystr) :
  length argv = 4%nat ->
  exists a0 a1 a2 a3, argv = [a0; a1; a2; a3].
Proof.
  destruct argv as [|a0 [|a1 [|a2 [|a3 [|a4 rest]]]]]; try discriminate.
  intros _. exists a0, a1, a2, a3. reflexivity.
Qed.

Lemma server_main_cases (py : interpreter) (argv : list pystr)
    (env : socket_env)
    (selects : list (list Server.ready)) :
  (exists msg,
     main py argv env selects = mk_run [] ([], Raise (SystemExit msg))
     /\ (length argv <> 4%nat
         \/ exists a0 p0 p1 p2,
              argv = [a0; p0; p1; p2]
              /\ Server.check_port py [p0; p1; p2] = Raise (SystemExit msg)))
  \/ (exists a0 p0 p1 p2 z0 z1 z2,
        argv = [a0; p0; p1; p2]
        /\ Server.check_port py [p0; p1; p2] = Ok [z0; z1; z2]
        /\ main py argv env selects
           = match open_and_bind_socket env [z0; z1; z2] [] with
             | (acts, Ok _, _) =>
               mk_run acts (Server.waiting_for_request selects)
             | (acts, Raise e, _) => mk_run acts ([], Raise e)
             end).
Proof.
  unfold main, check_number_of_arguments.
  destruct (Nat.eqb_spec (length argv) 4) as [Hlen|Hlen]; cbn [negb rbind].
  2:{ left. eexists. split; [reflexivity|]. left. exact Hlen. }
  destruct (four_arguments argv Hlen) as (a0 & p0 & p1 & p2 & ->).
  change (slice [a0; p0; p1; p2] 1 4) with [p0; p1; p2].
  destruct (check_port_rejects_fatally py p0 p1 p2) as [[ports H] | [msg H]].
  - right. pose proof H as H'. apply check_port_accepts in H'.
    destruct H' as (_ & _ & _ & z0 & z1 & z2 & -> & _).
    exists a0, p0, p1, p2, z0, z1, z2. rewrite H.
    split; [reflexivity|]. split; reflexivity.
  - left. exists msg. rewrite H. split; [reflexivity|]. right.
    exists a0, p0, p1, p2. split; [reflexivity | exact H].
Qed.

(** X14.  [main] does nothing to any socket unless it was given four
    arguments and [check_port] accepted the three ports; what it then does
    is what [open_and_bind_socket] does with the ports as converted. *)
Theorem no_socket_before_the_ports_are_checked :
  forall (py : interpreter) (argv : list pystr) (env : socket_env)
         (selects : list (list Server.ready)),
    startup (ServerStart.main py argv env selects) = []
    \/ exists a0 p0 p1 p2 z0 z1 z2,
         argv = [a0; p0; p1; p2]
         /\ Server.check_port py [p0; p1; p2] = Ok [z0; z1; z2]
         /\ startup (ServerStart.main py argv env selects)
            = fst (fst (open_and_bind_socket env [z0; z1; z2] [])).
Proof.
  intros py argv env selects.
  destruct (server_main_cases py argv env selects)
    as [(msg & -> & _) | (a0 & p0 & p1 & p2 & z0 & z1 & z2 & E & Hc & ->)];
    [left; reflexivity|].
  right. exists a0, p0, p1, p2, z0, z1, z2.
  split; [exact E|]. split; [exact Hc|].
  destruct (open_and_bind_socket env [z0; z1; z2] []) as [[tr [[]|e]] st];
    reflexivity.
Qed.

(** X15.  With three ports that [check_port] accepts and an operating
    system that grants every socket and every bind, [main] binds the three
    sockets to the three ports in order, closes none, and goes on to the
    loop. *)
Theorem server_reaches_its_loop :
  forall (py : interpreter) (a0 p0 p1 p2 : pystr) (z0 z1 z2 : Z)
         (env : socket_env) (selects : list (list Server.ready)),
    Server.check_port py [p0; p1; p2] = Ok [z0; z1; z2] ->
    (forall s, create_ok env s = true /\ bind_ok env s = true) ->
    serving (ServerStart.main py [a0; p0; p1; p2] env selects)
    = Server.waiting_for_request selects
    /\ bound (startup (ServerStart.main py [a0; p0; p1; p2] env selects))
       = [(Server.ensock, z0); (Server.masock, z1); (Server.gersock, z2)]
    /\ closed (startup (ServerStart.main py [a0; p0; p1; p2] env selects)) = [].
Proof.
  intros py a0 p0 p1 p2 z0 z1 z2 env selects Hc Henv.
  destruct (server_main_cases py [a0; p0; p1; p2] env selects)
    as [(msg & _ & [H | (b0 & q0 & q1 & q2 & E & H)])
       | (b0 & q0 & q1 & q2 & y0 & y1 & y2 & E & H & ->)].
  - exfalso. apply H. reflexivity.
  - injection E as _ <- <- <-. rewrite Hc in H. discriminate.
  - injection E as _ <- <- <-. rewrite Hc in H. injection H as <- <- <-.
    pose proof (open_and_bind_socket_run env z0 z1 z2) as Hrun.
    destruct (open_and_bind_socket env [z0; z1; z2] []) as [[tr [[]|e]] st].
    + destruct Hrun as (_ & _ & Hb & Hcl & _). auto.
    + destruct Hrun as ((s & [Hs | Hs]) & _);
        destruct (Henv s) as [H1 H2]; congruence.
Qed.

Lemma server_reaches_its_loop_witness :
  Server.check_port Scenario.interp [u "5000"; u "5001"; u "5002"] = Ok [5000; 5001; 5002]
  /\ (forall s, create_ok Scenario.cooperative s = true
                /\ bind_ok Scenario.cooperative s = true)
  /\ serving (ServerStart.main Scenario.interp [u "server.py"; u "5000"; u "5001"; u "5002"]
                Scenario.cooperative Sample.selects)
     = Server.waiting_for_request Sample.selects
  /\ bound (startup (ServerStart.main Scenario.interp
                       [u "server.py"; u "5000"; u "5001"; u "5002"]
                       Scenario.cooperative Sample.selects))
     = [(Server.ensock, 5000); (Server.masock, 5001); (Server.gersock, 5002)]
  /\ closed (startup (ServerStart.main Scenario.interp
                        [u "server.py"; u "5000"; u "5001"; u "5002"]
                        Scenario.cooperative Sample.selects)) = [].
Proof.
  assert (Hc : Server.check_port Scenario.interp [u "5000"; u "5001"; u "5002"]
               = Ok [5000; 5001; 5002]) by (vm_compute; reflexivity).
  assert (He : forall s, create_ok Scenario.cooperative s = true
                         /\ bind_ok Scenario.cooperative s = true)
    by (intros s; split; reflexivity).
  split; [exact Hc|]. split; [exact He|].
  apply (server_reaches_its_loop Scenario.interp (u "server.py") (u "5000") (u "5001")
           (u "5002") 5000 5001 5002 Scenario.cooperative Sample.selects).
  - exact Hc.
  - exact He.
Defined.

(** ** A request, its answer and the report *)

(** X21.  Client and server together, for a timestamp up to the year 2100:
    the request the client builds for DATE or TIME is answered by the
    server, from whichever of its sockets received it, with a datagram to
    the client's address; on receiving that datagram the client ends
    normally, having printed its request line, the language of that
    socket, the text the server rendered, and the server's date and time. *)
Theorem request_is_answered_and_reported :
  forall (request_type : Z) (s : Server.sock) (now : datetime)
         (client_host : pystr) (client_port : Z)
         (server_host : pystr) (server_port : Z),
    valid_datetime now ->
    year now <= 2100 ->
    request_type = Client.REQUEST_DATE \/ request_type = Client.REQUEST_TIME ->
    exists (request response : bytes) (text : pystr),
      Client.build_request_packet request_type = Ok request
      /\ Server.tell_it_what_it_is now (Server.get_language s) request_type
         = Ok (Some text)
      /\ In (SendTo response client_host client_port)
            (trace (Server.handle_ready
                      (Server.mk_ready s
                         (Received request client_host client_port)
                         now true)))
      /\ printed
           (Client.session request_type server_host server_port true true
              (Received response server_host server_port))
         = [ request_line request_type server_host server_port;
             Server.get_language s ++ u " response received:";
             u "Text: " ++ text;
             u "Date: " ++ str_of_Z (day now) ++ u "/"
               ++ str_of_Z (month now) ++ u "/" ++ str_of_Z (year now);
             u "Time: " ++ format_02 (hour now) ++ u ":"
               ++ format_02 (minute now) ]
      /\ result
           (Client.session request_type server_host server_port true true
              (Received response server_host server_port))
         = Ok tt.
Proof.
  intros rt s now chost cport shost sport Hv Hy Hrt.
  destruct (session_run rt shost sport true true
              (Received (built_response now (Server.get_language s) []) [] 0)
              Hrt) as (request & Hb & Hvalid & Hx & _).
  destruct (handle_ready_valid s request chost cport now true Hv Hvalid)
    as (rt' & response & Hx' & Hr & Hh).
  rewrite Hx in Hx'. injection Hx' as <-.
  assert (Hl : supported (Server.get_language s))
    by (destruct s; cbn; tauto).
  destruct (create_response_spec now _ rt Hv Hl Hrt)
    as (text & Ht & Hs & Hlen & He & Hc).
  rewrite Hr in Hc. injection Hc as ->.
  set (enc := flat_map enc_char text) in *.
  set (pkt := built_response now (Server.get_language s) enc).
  exists request, pkt, text.
  split; [exact Hb|]. split; [exact Ht|].
  split; [rewrite Hh; right; left; reflexivity|].
  assert (Hrun : Client.process_packet pkt = accepted_run pkt text).
  { apply accepted_packet.
    - apply built_valid; [exact Hv | lia | exact Hy].
    - unfold pkt. rewrite built_text. apply utf8_round_trip. exact Hs. }
  destruct (session_run rt shost sport true true (Received pkt shost sport)
              Hrt) as (request' & Hb' & _ & _ & ->).
  cbn [negb]. rewrite Hrun. unfold accepted_run, report.
  cbn [trace result fst snd printed flat_map map app].
  unfold pkt.
  rewrite built_language, (built_year _ _ _ Hv), (built_month _ _ _ Hv),
    (built_day _ _ _ Hv), (built_hour _ _ _ Hv), (built_minute _ _ _ Hv),
    (supported_language_name _ Hl).
  split; reflexivity.
Qed.

Lemma request_is_answered_and_reported_witness :
  valid_datetime Sample.now
  /\ year Sample.now <= 2100
  /\ (Client.REQUEST_DATE = Client.REQUEST_DATE
      \/ Client.REQUEST_DATE = Client.REQUEST_TIME)
  /\ exists (request response : bytes) (text : pystr),
       Client.build_request_packet Client.REQUEST_DATE = Ok request
       /\ Server.tell_it_what_it_is Sample.now
            (Server.get_language Server.masock) Client.REQUEST_DATE
          = Ok (Some text)
       /\ In (SendTo response Sample.host 40001)
             (trace (Server.handle_ready
                       (Server.mk_ready Server.masock
                          (Received request Sample.host 40001)
                          Sample.now true)))
       /\ printed
            (Client.session Client.REQUEST_DATE Sample.host 5001 true true
               (Received response Sample.host 5001))
          = [ request_line Client.REQUEST_DATE Sample.host 5001;
              Server.get_language Server.masock ++ u " response received:";
              u "Text: " ++ text;
              u "Date: " ++ str_of_Z (day Sample.now) ++ u "/"
                ++ str_of_Z (month Sample.now) ++ u "/"
                ++ str_of_Z (year Sample.now);
              u "Time: " ++ format_02 (hour Sample.now) ++ u ":"
                ++ format_02 (minute Sample.now) ]
       /\ result
            (Client.session Client.REQUEST_DATE Sample.host 5001 true true
               (Received response Sample.host 5001))
          = Ok tt.
Proof.
  assert (Hv : valid_datetime Sample.now) by (unfold valid_datetime; cbn; lia).
  assert (Hy : year Sample.now <= 2100) by (cbn; lia).
  split; [exact Hv|]. split; [exact Hy|]. split; [left; reflexivity|].
  apply (request_is_answered_and_reported Client.REQUEST_DATE Server.masock
           Sample.now Sample.host 40001 Sample.host 5001).
  - exact Hv.
  - exact Hy.
  - left. reflexivity.
Defined.

(** ** The size of a response *)

Lemma ascii_encoded_length (s : pystr) :
  forallb (fun c => c <? 128) s = true ->
  length (flat_map enc_char s) = length s.
Proof.
  induction s as [|c s IH]; [reflexivity|].
  cbn [forallb flat_map]. intros H. apply andb_true_iff in H.
  destruct H as [Hc Hs]. rewrite length_app, (IH Hs).
  unfold enc_char. rewrite Hc. reflexivity.
Qed.

Lemma uint_digits_ascii (d : Decimal.uint) :
  forallb (fun c => c <? 128) (uint_digits d) = true.
Proof. induction d; cbn [uint_digits forallb]; try rewrite IHd; reflexivity. Qed.

Lemma str_of_Z_bytes (z : Z) :
  length (flat_map enc_char (str_of_Z z)) = length (str_of_Z z).
Proof.
  apply ascii_encoded_length. unfold str_of_Z.
  destruct (z <? 0); cbn [forallb]; rewrite uint_digits_ascii; reflexivity.
Qed.

Lemma format_02_bytes (z : Z) :
  length (flat_map enc_char (format_02 z)) = length (format_02 z).
Proof.
  apply ascii_encoded_length. unfold format_02, str_of_Z.
  destruct (length _ <? 2)%nat; destruct (z <? 0); cbn [forallb];
    rewrite uint_digits_ascii; reflexivity.
Qed.

Ltac lit_bytes :=
  repeat match goal with
  | |- context [length (flat_map enc_char (u ?s))] =>
    let n := eval vm_compute in (length (flat_map enc_char (u s))) in
    change (length (flat_map enc_char (u s))) with n
  end.

Lemma rendered_bytes (now : datetime) (language : pystr) (rt : Z) :
  valid_datetime now -> supported language ->
  rt = Server.REQUEST_DATE \/ rt = Server.REQUEST_TIME ->
  exists text,
    Server.tell_it_what_it_is now language rt = Ok (Some text)
    /\ (17 <= length (flat_map enc_char text) <= 52)%nat.
Proof.
  intros (Hy & Hm & Hd & Hh & Hmin) Hl Hrt.
  assert (Hb : month_bytes_ok language (month now) = true).
  { destruct Hl as [<- | [<- | [<- | []]]];
      apply (forall_range (month_bytes_ok _) 13);
      solve [vm_compute; reflexivity | lia]. }
  unfold month_bytes_ok in Hb.
  destruct (Server.dict_getitem Server.MONTH_NAMES language) as [names|]
    eqn:Hnames; [|discriminate].
  destruct (getitem names (month now - 1)) as [name|] eqn:Hname;
    [|discriminate].
  apply Nat.leb_le in Hb.
  pose proof (str_of_Z_two_digits (day now) ltac:(lia)) as Ld.
  pose proof (str_of_Z_short (year now) ltac:(lia)) as Ly.
  pose proof (format_02_short (hour now) ltac:(lia)) as Lh.
  pose proof (format_02_short (minute now) ltac:(lia)) as Lm.
  unfold Server.tell_it_what_it_is. rewrite Hnames. cbn [rbind].
  rewrite Hname. cbn [rbind].
  assert (Ee : pystr_eqb Server.Maori Server.English = false) by reflexivity.
  assert (Eg : pystr_eqb Server.German Server.English = false) by reflexivity.
  assert (Em : pystr_eqb Server.German Server.Maori = false) by reflexivity.
  assert (Er : forall a, pystr_eqb a a = true)
    by (intros a; apply pystr_eqb_eq; reflexivity).
  destruct (request_type_cases rt Hrt) as [E1 | [E1 E2]];
    rewrite E1; try rewrite E2;
    destruct Hl as [<- | [<- | [<- | []]]];
    rewrite ?Er, ?Ee, ?Eg, ?Em;
    (eexists; split; [reflexivity|];
     rewrite !flat_map_app, !length_app, ?str_of_Z_bytes, ?format_02_bytes;
     lit_bytes; lia).
Qed.

(** X7.  Every response the server builds, for any valid timestamp, any
    of the three languages and either request kind, is between 30 and 65
    bytes long: the test for 255 bytes or more in the loop never fires. *)
Theorem response_is_short :
  forall (now : datetime) (language : pystr) (request_type : Z),
    valid_datetime now ->
    supported language ->
    request_type = Server.REQUEST_DATE \/ request_type = Server.REQUEST_TIME ->
    exists response : bytes,
      Server.create_response now language request_type = Ok response
      /\ (30 <= length response <= 65)%nat.
Proof.
  intros now language rt Hv Hl Hrt.
  destruct (create_response_spec now language rt Hv Hl Hrt)
    as (text & Ht & _ & _ & _ & Hc).
  destruct (rendered_bytes now language rt Hv Hl Hrt) as (text' & Ht' & Hb).
  rewrite Ht in Ht'. injection Ht' as <-.
  eexists. split; [exact Hc|]. rewrite built_length. lia.
Qed.

Lemma response_is_short_witness :
  valid_datetime Sample.now
  /\ supported Server.Maori
  /\ (Server.REQUEST_DATE = Server.REQUEST_DATE
      \/ Server.REQUEST_DATE = Server.REQUEST_TIME)
  /\ exists response : bytes,
       Server.create_response Sample.now Server.Maori Server.REQUEST_DATE
       = Ok response
       /\ (30 <= length response <= 65)%nat.
Proof.
  assert (Hv : valid_datetime Sample.now) by (unfold valid_datetime; cbn; lia).
  assert (Hl : supported Server.Maori) by (right; left; reflexivity).
  split; [exact Hv|]. split; [exact Hl|]. split; [left; reflexivity|].
  apply (response_is_short Sample.now Server.Maori Server.REQUEST_DATE).
  - exact Hv.
  - exact Hl.
  - left. reflexivity.
Defined.
